(** * clean_notebooks.py: stripping outputs from Jupyter notebooks

    A shallow embedding of [src/clean_notebooks.py] and the properties of
    its two functions, [clean_notebook] and [main].

    Conventions of the embedding.
    - A Python [str] is a [string] holding its UTF-8 encoding, so a code
      point above U+007F is a run of bytes that are all at least 0x80.
    - A Python [dict] is an association list in insertion order.  Looking
      a key up finds its first binding, and storing under a key that is
      present rewrites that binding where it stands; [json.load] builds
      dicts without repeated keys.
    - A Python exception is a value of [exn]; code that may raise returns
      a [result].  In-place mutation is written as explicit rebuilding of
      the enclosing value: the values [json.load] returns are trees with no
      sharing, so nothing else can observe the mutated object. *)

From stdpp Require Import base option list strings gmap.
From Stdlib Require Import ZArith SpecFloat DecimalString Ascii.

Open Scope string_scope.
Open Scope list_scope.
Open Scope nat_scope.
Set Warnings "-register-all".

(** ** Exceptions and results *)

Inductive exn_class : Set :=
| KeyError | TypeError | JSONDecodeError | UnicodeDecodeError
| RecursionError | FileNotFoundError | PermissionError | OSError.

(** An exception carries its class and the text [str(e)] gives. *)
Record exn : Set := mkExn { exn_cls : exn_class; exn_str : string }.

Inductive result (A : Type) : Type :=
| Ok (a : A)
| Raise (e : exn).
Arguments Ok {A} a.
Arguments Raise {A} e.

Definition bind {A B} (r : result A) (k : A → result B) : result B :=
  match r with
  | Ok a => k a
  | Raise e => Raise e
  end.

Notation "'let*' x := r 'in' k" := (bind r (fun x => k))
  (at level 10, x name, r at level 100, k at level 200,
   format "'[v' 'let*'  x  :=  r  'in' '/' k ']'").

Definition is_ok {A} (r : result A) : bool :=
  match r with Ok _ => true | Raise _ => false end.

(** ** Values produced by [json.load] *)

Inductive json : Type :=
| JNull
| JBool (b : bool)
| JInt (n : Z)
| JFloat (f : spec_float)
| JStr (s : string)
| JList (items : list json)
| JObj (members : list (string * json)).

Abbreviation dict := (list (string * json)).

(** [type(o).__name__], as it appears in the messages of [TypeError]. *)
Definition type_name (o : json) : string :=
  match o with
  | JNull => "NoneType"
  | JBool _ => "bool"
  | JInt _ => "int"
  | JFloat _ => "float"
  | JStr _ => "str"
  | JList _ => "list"
  | JObj _ => "dict"
  end.

(** *** Dicts *)

Fixpoint dict_get (d : dict) (k : string) : option json :=
  match d with
  | [] => None
  | (k', v) :: d' => if String.eqb k' k then Some v else dict_get d' k
  end.

Definition dict_has (d : dict) (k : string) : bool :=
  match dict_get d k with Some _ => true | None => false end.

(** The store [d[k] = v] on a dict that holds [k]. *)
Fixpoint dict_replace (d : dict) (k : string) (v : json) : dict :=
  match d with
  | [] => []
  | (k', v') :: d' =>
      if String.eqb k' k then (k', v) :: d' else (k', v') :: dict_replace d' k v
  end.

(** [d[k] = v]: a present key keeps its place, a new key goes last. *)
Definition dict_set (d : dict) (k : string) (v : json) : dict :=
  if dict_has d k then dict_replace d k v else d ++ [(k, v)].

Definition dict_keys (d : dict) : list string := d.*1.

(** *** Strings *)

(** [needle in s] for two [str]: [needle] occurs in [s]. *)
Fixpoint str_contains (needle s : string) : bool :=
  String.prefix needle s ||
  match s with
  | EmptyString => false
  | String _ s' => str_contains needle s'
  end.

(** A byte [10xxxxxx] continues the code point begun before it. *)
Definition is_continuation (c : Ascii.ascii) : bool :=
  let n := Ascii.nat_of_ascii c in (128 <=? n)%nat && (n <? 192)%nat.

(** The code points of a [str], each as a one-character [str]: what
    iterating over the [str] yields. *)
Fixpoint str_chars_aux (cur : string) (s : string) : list string :=
  match s with
  | EmptyString => [cur]
  | String c s' =>
      if is_continuation c then str_chars_aux (cur +:+ String c EmptyString) s'
      else cur :: str_chars_aux (String c EmptyString) s'
  end.

Definition str_chars (s : string) : list string :=
  match s with
  | EmptyString => []
  | String c s' => str_chars_aux (String c EmptyString) s'
  end.

(** [repr(k)] of a key, as [str(KeyError(k))] shows it.  Exact for keys
    without quotes, backslashes and unprintable characters, which is all
    this program ever looks up. *)
Definition repr_key (k : string) : string := "'" +:+ k +:+ "'".

(** *** The operators the program applies to loaded values *)

(** [o[k]] for a [str] key [k]. *)
Definition py_getitem (o : json) (k : string) : result json :=
  match o with
  | JObj d =>
      match dict_get d k with
      | Some v => Ok v
      | None => Raise (mkExn KeyError (repr_key k))
      end
  | JList _ =>
      Raise (mkExn TypeError "list indices must be integers or slices, not str")
  | JStr _ =>
      Raise (mkExn TypeError "string indices must be integers, not 'str'")
  | _ =>
      Raise (mkExn TypeError ("'" +:+ type_name o +:+ "' object is not subscriptable"))
  end.

(** [a == b] where [b] is a [str]: only an equal [str] compares equal. *)
Definition py_eq_str (a : json) (b : string) : bool :=
  match a with
  | JStr s => String.eqb s b
  | _ => false
  end.

(** [k in o] for a [str] [k]: a key of a dict, an element of a list, a
    substring of a [str]. *)
Definition py_contains (k : string) (o : json) : result bool :=
  match o with
  | JObj d => Ok (dict_has d k)
  | JList l => Ok (existsb (fun x => py_eq_str x k) l)
  | JStr s => Ok (str_contains k s)
  | _ =>
      Raise (mkExn TypeError ("argument of type '" +:+ type_name o +:+ "' is not iterable"))
  end.

(** [o[k] = v] for a [str] key [k]; the result is [o] after the store. *)
Definition py_setitem (o : json) (k : string) (v : json) : result json :=
  match o with
  | JObj d => Ok (JObj (dict_set d k v))
  | JList _ =>
      Raise (mkExn TypeError "list indices must be integers or slices, not str")
  | _ =>
      Raise (mkExn TypeError
               ("'" +:+ type_name o +:+ "' object does not support item assignment"))
  end.

(** What [for x in o] binds [x] to, in order. *)
Definition py_iter (o : json) : result (list json) :=
  match o with
  | JList l => Ok l
  | JObj d => Ok (JStr <$> dict_keys d)
  | JStr s => Ok (JStr <$> str_chars s)
  | _ => Raise (mkExn TypeError ("'" +:+ type_name o +:+ "' object is not iterable"))
  end.

(** ** The transform: lines 13 to 23 of [clean_notebook] *)

(** The body of the loop, for one [cell]; the result is the cell after
    the stores.  [cell['metadata']['execution'] = {}] mutates the dict
    that [cell['metadata']] refers to, so the cell sees the new one. *)
Definition clean_cell (cell : json) : result json :=
  let* cell_type := py_getitem cell "cell_type" in
  if py_eq_str cell_type "code" then
    let* has_outputs := py_contains "outputs" cell in
    let* cell :=
      (if has_outputs : bool then py_setitem cell "outputs" (JList [])
       else Ok cell) in
    let* has_count := py_contains "execution_count" cell in
    let* cell :=
      (if has_count : bool then py_setitem cell "execution_count" JNull
       else Ok cell) in
    let* has_metadata := py_contains "metadata" cell in
    if has_metadata : bool then
      let* metadata := py_getitem cell "metadata" in
      let* has_execution := py_contains "execution" metadata in
      if has_execution : bool then
        let* metadata := py_getitem cell "metadata" in
        let* metadata := py_setitem metadata "execution" (JObj []) in
        py_setitem cell "metadata" metadata
      else Ok cell
    else Ok cell
  else Ok cell.

(** The loop over the cells, stopping at the first exception. *)
Fixpoint clean_cells (cells : list json) : result (list json) :=
  match cells with
  | [] => Ok []
  | cell :: rest =>
      let* cell := clean_cell cell in
      let* rest := clean_cells rest in
      Ok (cell :: rest)
  end.

(** The whole transform.  When [notebook['cells']] is a list its elements
    are the very objects the loop mutates, and the notebook holds the
    list.  When it is a dict or a [str] the loop runs over keys or
    characters, which are [str] objects of their own: the loop body then
    raises on the first of them and the notebook is never touched. *)
Definition transform (notebook : json) : result json :=
  let* cells := py_getitem notebook "cells" in
  match cells with
  | JList cells =>
      let* cells := clean_cells cells in
      py_setitem notebook "cells" (JList cells)
  | _ =>
      let* items := py_iter cells in
      let* _ := clean_cells items in
      Ok notebook
  end.

(** ** The file system and the console *)

(** A regular file: its bytes, whether this process may open it for
    reading and for writing, and how many bytes the device still takes
    for it ([None]: no limit). *)
Record file : Set := mkFile {
  content : string;
  readable : bool;
  writable : bool;
  room : option nat
}.

(** An entry of a directory, as [os.walk] sorts it: a directory with its
    entries in listing order, or anything else. *)
Inductive node : Set :=
| File
| Dir (entries : list (string * node)).

(** The world the program runs in: the tree under the working directory,
    the file each path string opens, and the calls of [print] so far,
    oldest first. *)
Record world : Type := mkWorld {
  cwd : node;
  files : gmap string file;
  stdout : list string
}.

Definition LF : string := String "010"%char EmptyString.
Definition DQ : string := String "034"%char EmptyString.

Definition print (line : string) (w : world) : world :=
  mkWorld (cwd w) (files w) (stdout w ++ [line]).

(** [str(n)] for a non-negative [int]. *)
Definition str_of_nat (n : nat) : string := NilZero.string_of_uint (Nat.to_uint n).

(** [repr(p)] of a path inside the message of an [OSError]; exact for
    paths without quotes, backslashes and unprintable characters. *)
Definition repr_path (p : string) : string := "'" +:+ p +:+ "'".

(** [open(path, 'r', encoding='utf-8')] and reading the file to its end,
    as bytes. *)
Definition read_bytes (fs : gmap string file) (path : string) : result string :=
  match fs !! path with
  | None =>
      Raise (mkExn FileNotFoundError
               ("[Errno 2] No such file or directory: " +:+ repr_path path))
  | Some f =>
      if readable f then Ok (content f)
      else Raise (mkExn PermissionError
                    ("[Errno 13] Permission denied: " +:+ repr_path path))
  end.

(** [open(path, 'w', encoding='utf-8')], writing [data] and closing.
    Opening truncates the file; when the device runs out of room the
    bytes that fitted stay in the file. *)
Definition write_bytes (fs : gmap string file) (path data : string)
  : gmap string file * result unit :=
  match fs !! path with
  | None => (<[path := mkFile data true true None]> fs, Ok ())
  | Some f =>
      if writable f then
        match room f with
        | Some n =>
            if (String.length data <=? n)%nat
            then (<[path := mkFile data (readable f) true (Some n)]> fs, Ok ())
            else (<[path := mkFile (String.substring 0 n data) (readable f) true (Some n)]> fs,
                  Raise (mkExn OSError "[Errno 28] No space left on device"))
        | None => (<[path := mkFile data (readable f) true None]> fs, Ok ())
        end
      else (fs, Raise (mkExn PermissionError
                         ("[Errno 13] Permission denied: " +:+ repr_path path)))
  end.

(** *** [os.path.join], [str.endswith] and [os.walk] on POSIX *)

Definition startswith (s pre : string) : bool := String.prefix pre s.

Definition endswith (s suffix : string) : bool :=
  let n := String.length s in
  let m := String.length suffix in
  (m <=? n)%nat && String.eqb (String.substring (n - m) m s) suffix.

Definition path_join (a b : string) : string :=
  if startswith b "/" then b
  else if String.eqb a EmptyString || endswith a "/" then a +:+ b
  else a +:+ "/" +:+ b.

Definition is_dir (n : node) : bool :=
  match n with Dir _ => true | File => false end.

Definition dirnames (entries : list (string * node)) : list string :=
  (filter (λ e, is_dir e.2 = true) entries).*1.

Definition filenames (entries : list (string * node)) : list string :=
  (filter (λ e, is_dir e.2 = false) entries).*1.

(** [os.walk(top)], top-down: the triple of [top] first, then the walks
    of its subdirectories in listing order.  Walking something that is
    not a directory yields nothing. *)
Fixpoint walk (top : string) (n : node) : list (string * list string * list string) :=
  match n with
  | File => []
  | Dir entries =>
      (top, dirnames entries, filenames entries) ::
      (fix subdirs (es : list (string * node)) :=
         match es with
         | [] => []
         | (name, child) :: es' => walk (path_join top name) child ++ subdirs es'
         end) entries
  end.

(** ** The program *)

(** What the program takes from the Python runtime without this
    development looking inside. *)
Class Runtime : Type := {
  (** [json.load] on the bytes of a file: decoding them as UTF-8 and
      parsing the text, either of which may raise. *)
  json_load : string → result json;
  (** [float.__repr__] on a finite, non-zero float. *)
  float_repr : spec_float → string
}.

Section Program.
Context `{Runtime}.

(** *** [json.dump(notebook, f, indent=2, ensure_ascii=False)] *)

Definition repr_int (n : Z) : string := NilZero.string_of_int (Z.to_int n).

Definition floatstr (f : spec_float) : string :=
  match f with
  | S754_nan => "NaN"
  | S754_infinity false => "Infinity"
  | S754_infinity true => "-Infinity"
  | S754_zero false => "0.0"
  | S754_zero true => "-0.0"
  | S754_finite _ _ _ => float_repr f
  end.

Definition hex_digit (n : nat) : string :=
  String.substring n 1 "0123456789abcdef".

(** The replacement of one character inside a string literal: the
    quote, the backslash and the characters below U+0020 are escaped,
    every other byte is written as it is. *)
Definition escape_char (c : Ascii.ascii) : string :=
  let n := Ascii.nat_of_ascii c in
  if (n =? 34)%nat then "\" +:+ DQ
  else if (n =? 92)%nat then "\\"
  else if (n =? 10)%nat then "\n"
  else if (n =? 13)%nat then "\r"
  else if (n =? 9)%nat then "\t"
  else if (n =? 12)%nat then "\f"
  else if (n =? 8)%nat then "\b"
  else if (n <? 32)%nat then "\u00" +:+ hex_digit (n / 16) +:+ hex_digit (n mod 16)
  else String c EmptyString.

Fixpoint escape (s : string) : string :=
  match s with
  | EmptyString => EmptyString
  | String c s' => escape_char c +:+ escape s'
  end.

Definition encode_basestring (s : string) : string := DQ +:+ escape s +:+ DQ.

Fixpoint spaces (n : nat) : string :=
  match n with
  | O => EmptyString
  | S n' => String " "%char (spaces n')
  end.

(** A line break followed by the indentation of nesting depth [level]. *)
Definition newline_indent (level : nat) : string := LF +:+ spaces (2 * level).

(** The text of [o] when it sits at nesting depth [level]. *)
Fixpoint encode (level : nat) (o : json) : string :=
  match o with
  | JNull => "null"
  | JBool true => "true"
  | JBool false => "false"
  | JInt n => repr_int n
  | JFloat f => floatstr f
  | JStr s => encode_basestring s
  | JList [] => "[]"
  | JList (x :: xs) =>
      "[" +:+ newline_indent (S level) +:+ encode (S level) x +:+
      (fix rest (l : list json) : string :=
         match l with
         | [] => EmptyString
         | y :: l' => "," +:+ newline_indent (S level) +:+ encode (S level) y +:+ rest l'
         end) xs +:+
      newline_indent level +:+ "]"
  | JObj [] => "{}"
  | JObj ((k, v) :: kvs) =>
      "{" +:+ newline_indent (S level) +:+
      encode_basestring k +:+ ": " +:+ encode (S level) v +:+
      (fix rest (l : dict) : string :=
         match l with
         | [] => EmptyString
         | (k', v') :: l' =>
             "," +:+ newline_indent (S level) +:+
             encode_basestring k' +:+ ": " +:+ encode (S level) v' +:+ rest l'
         end) kvs +:+
      newline_indent level +:+ "}"
  end.

Definition json_dumps (o : json) : string := encode 0 o.

(** *** [clean_notebook] *)

(** The body of the [try]: load, transform, persist. *)
Definition clean_body (path : string) (fs : gmap string file)
  : gmap string file * result unit :=
  match read_bytes fs path with
  | Raise e => (fs, Raise e)
  | Ok bytes =>
      match json_load bytes with
      | Raise e => (fs, Raise e)
      | Ok notebook =>
          match transform notebook with
          | Raise e => (fs, Raise e)
          | Ok notebook => write_bytes fs path (json_dumps notebook)
          end
      end
  end.

Definition clean_notebook (notebook_path : string) (w : world) : world * bool :=
  match clean_body notebook_path (files w) with
  | (fs, Ok _) =>
      (print ("Cleaned: " +:+ notebook_path) (mkWorld (cwd w) fs (stdout w)), true)
  | (fs, Raise e) =>
      (print ("Error processing " +:+ notebook_path +:+ ": " +:+ exn_str e)
         (mkWorld (cwd w) fs (stdout w)), false)
  end.

(** *** [main] *)

(** Lines 38 to 44: the two nested loops that fill [notebook_files]. *)
Definition discover (top : node) : list string :=
  foldl (λ notebook_files '(root, _, files),
           foldl (λ notebook_files file,
                    if endswith file ".ipynb"
                    then notebook_files ++ [path_join root file]
                    else notebook_files)
                 notebook_files files)
        [] (walk "." top).

(** Lines 51 to 54: the loop that cleans and counts. *)
Fixpoint clean_all (notebook_files : list string) (success_count : nat) (w : world)
  : world * nat :=
  match notebook_files with
  | [] => (w, success_count)
  | notebook_file :: rest =>
      let '(w, cleaned) := clean_notebook notebook_file w in
      clean_all rest (if cleaned then success_count + 1 else success_count) w
  end.

Definition main (w : world) : world :=
  let notebook_files := discover (cwd w) in
  let w := print ("Found " +:+ str_of_nat (length notebook_files) +:+ " notebook files:") w in
  let w := foldl (λ w file, print ("  - " +:+ file) w) w notebook_files in
  let w := print (LF +:+ "Cleaning notebooks...") w in
  let '(w, success_count) := clean_all notebook_files 0 w in
  print (LF +:+ "Completed! Successfully cleaned " +:+ str_of_nat success_count +:+
         "/" +:+ str_of_nat (length notebook_files) +:+ " notebooks.") w.

End Program.

(** ** What the properties are stated with *)

(** The field [k] of a record: [None] when [o] is no dict or lacks [k]. *)
Definition field (o : json) (k : string) : option json :=
  match o with
  | JObj d => dict_get d k
  | _ => None
  end.

(** The cells the loop of the transform visits, in order. *)
Definition notebook_cells (notebook : json) : result (list json) :=
  let* cells := py_getitem notebook "cells" in
  py_iter cells.

(** A code cell: its [cell_type] is the [str] ["code"]. *)
Definition is_code_cell (cell : json) : Prop :=
  field cell "cell_type" = Some (JStr "code").

(** The idiom [if k in d: d[k] = v]. *)
Definition dict_overwrite (d : dict) (k : string) (v : json) : dict :=
  if dict_has d k then dict_set d k v else d.

(** Two dicts with the same keys in the same order that agree on every
    key outside [ks]. *)
Definition same_except (ks : list string) (d d' : dict) : Prop :=
  dict_keys d' = dict_keys d ∧ ∀ k, k ∉ ks → dict_get d' k = dict_get d k.

(** How the value under [metadata] of a code cell may differ after the
    transform: a dict has the value under [execution], if there is one,
    replaced by an empty dict; anything else is the same value. *)
Definition metadata_cleaned (m m' : json) : Prop :=
  match m with
  | JObj e =>
      ∃ e', m' = JObj e' ∧ same_except ["execution"] e e' ∧
            (dict_has e "execution" = true → dict_get e' "execution" = Some (JObj []))
  | _ => m' = m
  end.

(** The cleaned form of a value under [metadata]: a second run of the
    loop body finds nothing to change in it. *)
Definition metadata_settled (m : json) : Prop :=
  match m with
  | JObj e => ∀ v, dict_get e "execution" = Some v → v = JObj []
  | _ => py_contains "execution" m = Ok false
  end.

(** What the loop body does to the members [d] of a code cell. *)
Definition code_cell_cleaned (d d' : dict) : Prop :=
  same_except ["outputs"; "execution_count"; "metadata"] d d' ∧
  dict_get d' "outputs" = (if dict_has d "outputs" then Some (JList []) else None) ∧
  dict_get d' "execution_count" = (if dict_has d "execution_count" then Some JNull else None) ∧
  match dict_get d "metadata" with
  | None => dict_get d' "metadata" = None
  | Some m =>
      ∃ m', dict_get d' "metadata" = Some m' ∧ metadata_cleaned m m' ∧ metadata_settled m'
  end.

(** What the transform leaves alone in a code cell: the keys and their
    order, every field but [outputs], [execution_count] and [metadata],
    and inside [metadata] everything but [execution]; a field the cell
    lacks it still lacks afterwards. *)
Definition code_cell_preserved (c c' : json) : Prop :=
  ∃ d d', c = JObj d ∧ c' = JObj d' ∧
    same_except ["outputs"; "execution_count"; "metadata"] d d' ∧
    (∀ k, dict_get d k = None → dict_get d' k = None) ∧
    match dict_get d "metadata" with
    | None => dict_get d' "metadata" = None
    | Some m => ∃ m', dict_get d' "metadata" = Some m' ∧ metadata_cleaned m m'
    end.

(** What the transform clears in a code cell. *)
Definition outputs_cleared (c c' : json) : Prop :=
  is_Some (field c "outputs") → field c' "outputs" = Some (JList []).

Definition execution_count_cleared (c c' : json) : Prop :=
  is_Some (field c "execution_count") → field c' "execution_count" = Some JNull.

Definition execution_cleared (c c' : json) : Prop :=
  ∀ e, field c "metadata" = Some (JObj e) → is_Some (dict_get e "execution") →
       ∃ e', field c' "metadata" = Some (JObj e') ∧
             dict_keys e' = dict_keys e ∧
             dict_get e' "execution" = Some (JObj []).

(** ** Sample data *)

Module Sample.

Definition code_cell : json :=
  JObj [("cell_type", JStr "code");
        ("source", JStr "print('hi')");
        ("outputs", JList [JObj [("text", JStr "hi")]]);
        ("execution_count", JInt 3);
        ("metadata", JObj [("tags", JList [JStr "demo"]);
                           ("execution", JObj [("iopub.status", JStr "busy")])])].

Definition code_cell_cleaned : json :=
  JObj [("cell_type", JStr "code");
        ("source", JStr "print('hi')");
        ("outputs", JList []);
        ("execution_count", JNull);
        ("metadata", JObj [("tags", JList [JStr "demo"]);
                           ("execution", JObj [])])].

Definition markdown_cell : json :=
  JObj [("cell_type", JStr "markdown");
        ("source", JStr "# Title");
        ("outputs", JList [JStr "kept"])].

Definition notebook : json :=
  JObj [("cells", JList [code_cell; markdown_cell]);
        ("metadata", JObj [("kernelspec", JObj [("name", JStr "python3")])]);
        ("nbformat", JInt 4)].

Definition notebook_cleaned : json :=
  JObj [("cells", JList [code_cell_cleaned; markdown_cell]);
        ("metadata", JObj [("kernelspec", JObj [("name", JStr "python3")])]);
        ("nbformat", JInt 4)].

End Sample.

(** ** What the properties of a run are stated with *)

Section Run.
Context `{Runtime}.


(** The line [clean_notebook] prints for an outcome of its [try] body. *)
Definition report_line (path : string) (outcome : result unit) : string :=
  match outcome with
  | Ok _ => "Cleaned: " +:+ path
  | Raise e => "Error processing " +:+ path +:+ ": " +:+ exn_str e
  end.

(** The values [clean_notebook] returns along the loop of [main], each
    call running in the world the one before has left. *)
Fixpoint returns (notebook_files : list string) (w : world) : list bool :=
  match notebook_files with
  | [] => []
  | notebook_file :: rest =>
      let '(w, cleaned) := clean_notebook notebook_file w in
      cleaned :: returns rest w
  end.


(** The text of a member of a dict at nesting depth [level]. *)
Definition member_text (level : nat) (kv : string * json) : string :=
  encode_basestring kv.1 +:+ ": " +:+ encode level kv.2.

End Run.

Section Driver.
Context `{Runtime}.

(** The world when the cleaning loop of [main] starts: lines 46 to 50
    have printed the count, the list of paths and the heading. *)
Definition before_loop (notebook_files : list string) (w : world) : world :=
  let w := print ("Found " +:+ str_of_nat (length notebook_files) +:+ " notebook files:") w in
  let w := foldl (λ w file, print ("  - " +:+ file) w) w notebook_files in
  print (LF +:+ "Cleaning notebooks...") w.

(** The summary line of line 56. *)
Definition summary (success_count total : nat) : string :=
  LF +:+ "Completed! Successfully cleaned " +:+ str_of_nat success_count +:+
  "/" +:+ str_of_nat total +:+ " notebooks.".



End Driver.

(** ** A sample run *)

Module SampleRun.

Definition repr (f : spec_float) : string := "1.5".

(** A runtime that prints and never parses. *)
Definition printer : Runtime :=
  {| json_load := λ _, Raise (mkExn JSONDecodeError "unused");
     float_repr := repr |}.

Definition notebook_text : string := @json_dumps printer Sample.notebook.

(** A document whose second cell has no [cell_type]. *)
Definition untyped_notebook : json :=
  JObj [("cells", JList [Sample.markdown_cell; JObj [("source", JStr "x = 1")]])].

Definition untyped_text : string := @json_dumps printer untyped_notebook.

(** A parser that knows the two sample documents and rejects any
    other text the way [json.load] rejects text that is no JSON. *)
Definition load (bytes : string) : result json :=
  if String.eqb bytes notebook_text then Ok Sample.notebook
  else if String.eqb bytes untyped_text then Ok untyped_notebook
  else Raise (mkExn JSONDecodeError "Expecting value: line 1 column 1 (char 0)").

Definition runtime : Runtime := {| json_load := load; float_repr := repr |}.

Definition tree : node :=
  Dir [("a.ipynb", File);
       ("broken.ipynb", File);
       ("README.md", File);
       ("sub", Dir [("b.ipynb", File); ("notes.txt", File)])].

Definition store : gmap string file :=
  list_to_map [("./a.ipynb", mkFile notebook_text true true None);
               ("./broken.ipynb", mkFile "{ not json" true true None);
               ("./sub/b.ipynb", mkFile notebook_text true true (Some 4096));
               ("./untyped.ipynb", mkFile untyped_text true true None);
               ("./locked.ipynb", mkFile notebook_text true false None)].

Definition start : world := mkWorld tree store [].

End SampleRun.

(** ** What the properties of the discovery are stated with *)

Fixpoint has_slash (s : string) : bool :=
  match s with
  | EmptyString => false
  | String c s' => Ascii.eqb c "/" || has_slash s'
  end.

(** A name as a directory listing gives it: not empty, no slash in it. *)
Definition valid_name (name : string) : Prop :=
  name ≠ EmptyString ∧ has_slash name = false.

(** A tree as a file system holds it: in every directory the names are
    valid and no name occurs twice. *)
Inductive well_formed : node → Prop :=
| wf_file : well_formed File
| wf_dir entries :
    NoDup entries.*1 →
    Forall (λ e, valid_name e.1 ∧ well_formed e.2) entries →
    well_formed (Dir entries).

(** Induction over a tree, with the property at hand for every entry of
    a directory. *)
Fixpoint node_induction (P : node → Prop) (HF : P File)
    (HD : ∀ entries, Forall (λ e, P e.2) entries → P (Dir entries))
    (n : node) : P n :=
  match n with
  | File => HF
  | Dir entries =>
      HD entries
         ((fix go (es : list (string * node)) : Forall (λ e, P e.2) es :=
             match es return Forall (λ e, P e.2) es with
             | [] => List.Forall_nil _
             | e :: es' =>
                 @List.Forall_cons _ (λ e, P e.2) e es'
                   (match e return P e.2 with
                    | (_, child) => node_induction P HF HD child
                    end)
                   (go es')
             end) entries)
  end.

(** [file_at n names]: following [names] down from the directory [n]
    leads to an entry that is not a directory. *)
Inductive file_at : node → list string → Prop :=
| file_here entries name :
    (name, File) ∈ entries → file_at (Dir entries) [name]
| file_below entries name child names :
    (name, child) ∈ entries → file_at child names →
    file_at (Dir entries) (name :: names).

(** The path of the entry [names] lead to from the directory [top]. *)
Fixpoint path_under (top : string) (names : list string) : string :=
  match names with
  | [] => top
  | name :: names' => path_under (top +:+ "/" +:+ name) names'
  end.

(** The paths [main] collects from the walk that starts at [top]. *)
Definition found (top : string) (n : node) : list string :=
  walk top n ≫= λ '(root, _, files),
    path_join root <$> filter (λ file, endswith file ".ipynb" = true) files.

Fixpoint last_char (s : string) : option ascii :=
  match s with
  | EmptyString => None
  | String c s' =>
      match last_char s' with
      | None => Some c
      | Some c' => Some c'
      end
  end.

(** A directory path [os.walk] hands out: not empty, no slash at its end. *)
Definition good_top (top : string) : Prop :=
  top ≠ EmptyString ∧ last_char top ≠ Some "/"%char.

(** The part of a path below its top. *)
Fixpoint below (names : list string) : string :=
  match names with
  | [] => EmptyString
  | name :: names' => "/" +:+ name +:+ below names'
  end.

(** ** Which documents the transform accepts *)

(** A cell on which the loop body comes to its end: a dict with a
    [cell_type], and when that is ["code"] a [metadata] in which the
    loop body can look for [execution] and store under it: none, a dict,
    or a [str] or list without ["execution"] in it. *)
Definition cell_accepted (c : json) : bool :=
  match c with
  | JObj d =>
      match dict_get d "cell_type" with
      | None => false
      | Some cell_type =>
          if py_eq_str cell_type "code" then
            match dict_get d "metadata" with
            | None => true
            | Some (JObj _) => true
            | Some (JStr s) => negb (str_contains "execution" s)
            | Some (JList l) => negb (existsb (λ x, py_eq_str x "execution") l)
            | Some _ => false
            end
          else true
      end
  | _ => false
  end.

(** A document on which the transform comes to its end: a dict whose
    [cells] is a list of accepted cells, or an empty dict or [str]. *)
Definition accepted (notebook : json) : bool :=
  match notebook with
  | JObj dn =>
      match dict_get dn "cells" with
      | Some (JList cells) => forallb cell_accepted cells
      | Some (JObj []) => true
      | Some (JStr EmptyString) => true
      | _ => false
      end
  | _ => false
  end.

(** ** A second sample run *)

Module SampleRerun.

Definition cleaned_text : string := @json_dumps SampleRun.printer Sample.notebook_cleaned.

(** A parser that also knows the cleaned sample document. *)
Definition load (bytes : string) : result json :=
  if String.eqb bytes SampleRun.notebook_text then Ok Sample.notebook
  else if String.eqb bytes cleaned_text then Ok Sample.notebook_cleaned
  else Raise (mkExn JSONDecodeError "Expecting value: line 1 column 1 (char 0)").

Definition runtime : Runtime := {| json_load := load; float_repr := SampleRun.repr |}.

(** A working directory without notebooks. *)
Definition bare : world :=
  mkWorld (Dir [("README.md", File); ("docs", Dir [("index.md", File)])])
          (list_to_map [("./README.md", mkFile "# readme" true true None)]) [].

End SampleRerun.

(** ** What the properties of the serializer are stated with *)

(** Induction over a value, with the property at hand for every item of
    a list and every member of a dict. *)
Fixpoint json_induction (P : json → Prop)
    (HNull : P JNull) (HBool : ∀ b, P (JBool b)) (HInt : ∀ n, P (JInt n))
    (HFloat : ∀ f, P (JFloat f)) (HStr : ∀ s, P (JStr s))
    (HList : ∀ items, Forall P items → P (JList items))
    (HObj : ∀ members, Forall (λ kv, P kv.2) members → P (JObj members))
    (o : json) : P o :=
  match o with
  | JNull => HNull
  | JBool b => HBool b
  | JInt n => HInt n
  | JFloat f => HFloat f
  | JStr s => HStr s
  | JList items =>
      HList items
        ((fix go (l : list json) : Forall P l :=
            match l return Forall P l with
            | [] => List.Forall_nil _
            | x :: l' =>
                @List.Forall_cons _ P x l'
                  (json_induction P HNull HBool HInt HFloat HStr HList HObj x) (go l')
            end) items)
  | JObj members =>
      HObj members
        ((fix go (l : dict) : Forall (λ kv, P kv.2) l :=
            match l return Forall (λ kv, P kv.2) l with
            | [] => List.Forall_nil _
            | kv :: l' =>
                @List.Forall_cons _ (λ kv, P kv.2) kv l'
                  (match kv return P kv.2 with
                   | (_, v) => json_induction P HNull HBool HInt HFloat HStr HList HObj v
                   end)
                  (go l')
            end) members)
  end.

Fixpoint has_newline (s : string) : bool :=
  match s with
  | EmptyString => false
  | String c s' => Ascii.eqb c "010" || has_newline s'
  end.

(** The text [s] with two more spaces after each of its line breaks. *)
Fixpoint reindent (s : string) : string :=
  match s with
  | EmptyString => EmptyString
  | String c s' =>
      if Ascii.eqb c "010" then String c ("  " +:+ reindent s')
      else String c (reindent s')
  end.

(** The value of a lower-case hexadecimal digit. *)
Definition hex_value (c : ascii) : option nat :=
  let n := nat_of_ascii c in
  if (48 <=? n) && (n <=? 57) then Some (n - 48)
  else if (97 <=? n) && (n <=? 102) then Some (n - 87)
  else None.

(** The character a backslash and the letter [e] stand for. *)
Definition unescape_letter (e : ascii) : option ascii :=
  let n := nat_of_ascii e in
  if n =? 34 then Some "034"%char
  else if n =? 92 then Some "092"%char
  else if n =? 110 then Some "010"%char
  else if n =? 114 then Some "013"%char
  else if n =? 116 then Some "009"%char
  else if n =? 102 then Some "012"%char
  else if n =? 98 then Some "008"%char
  else None.

(** Reading back what [escape] writes: a backslash starts an escape, any
    other character stands for itself. *)
Fixpoint unescape (s : string) : option string :=
  match s with
  | EmptyString => Some EmptyString
  | String c s1 =>
      if Ascii.eqb c "092" then
        match s1 with
        | EmptyString => None
        | String e s2 =>
            if Ascii.eqb e "u" then
              match s2 with
              | String a (String b (String h (String l rest))) =>
                  match hex_value a, hex_value b, hex_value h, hex_value l with
                  | Some 0, Some 0, Some x, Some y =>
                      String (ascii_of_nat (16 * x + y)) <$> unescape rest
                  | _, _, _, _ => None
                  end
              | _ => None
              end
            else
              match unescape_letter e with
              | Some c' => String c' <$> unescape s2
              | None => None
              end
        end
      else String c <$> unescape s1
  end.

(** Two file stores with the same paths, each file with the same
    permissions and the same room: they differ in contents at most. *)
Definition same_entries (fs fs' : gmap string file) : Prop :=
  ∀ q, match fs !! q, fs' !! q with
       | Some f, Some f' =>
           readable f' = readable f ∧ writable f' = writable f ∧ room f' = room f
       | None, None => True
       | _, _ => False
       end.

(** ** Dicts *)

Section Dicts.
Implicit Types (d : dict) (k : string) (v : json).

Lemma dict_has_get d k : dict_has d k = true ↔ is_Some (dict_get d k).
Proof. unfold dict_has. destruct (dict_get d k); split; intros H; try done; by inversion H. Qed.

Lemma dict_has_keys d k : dict_has d k = true ↔ k ∈ dict_keys d.
Proof.
  unfold dict_has. induction d as [|[k' v'] d IH]; simpl.
  - split; [done | by intros ?%elem_of_nil].
  - destruct (String.eqb_spec k' k) as [->|Hne].
    + split; [intros _; left | done].
    + rewrite IH. split; [by right | intros [?|?]%elem_of_cons; congruence].
Qed.

Lemma dict_keys_replace d k v : dict_keys (dict_replace d k v) = dict_keys d.
Proof.
  induction d as [|[k' v'] d IH]; simpl; [done|].
  destruct (String.eqb k' k); simpl; [done | by rewrite IH].
Qed.

Lemma dict_get_replace_eq d k v :
  dict_has d k = true → dict_get (dict_replace d k v) k = Some v.
Proof.
  unfold dict_has. induction d as [|[k' v'] d IH]; simpl; [done|].
  destruct (String.eqb k' k) eqn:E; simpl; rewrite E; [done | exact IH].
Qed.

Lemma dict_get_replace_ne d k k' v :
  k ≠ k' → dict_get (dict_replace d k v) k' = dict_get d k'.
Proof.
  intros Hne. induction d as [|[k0 v0] d IH]; simpl; [done|].
  destruct (String.eqb_spec k0 k) as [->|Hk]; simpl.
  - by destruct (String.eqb_spec k k').
  - by rewrite IH.
Qed.

Lemma dict_replace_id d k v : dict_get d k = Some v → dict_replace d k v = d.
Proof.
  induction d as [|[k' v'] d IH]; simpl; [done|].
  destruct (String.eqb k' k); [by intros [= ->] | by intros ->%IH].
Qed.

Lemma dict_keys_overwrite d k v : dict_keys (dict_overwrite d k v) = dict_keys d.
Proof.
  unfold dict_overwrite, dict_set. destruct (dict_has d k); [|done].
  apply dict_keys_replace.
Qed.

Lemma dict_get_overwrite_eq d k v :
  dict_get (dict_overwrite d k v) k = if dict_has d k then Some v else None.
Proof.
  unfold dict_overwrite, dict_set. destruct (dict_has d k) eqn:E.
  - by apply dict_get_replace_eq.
  - unfold dict_has in E. by destruct (dict_get d k).
Qed.

Lemma dict_get_overwrite_ne d k k' v :
  k ≠ k' → dict_get (dict_overwrite d k v) k' = dict_get d k'.
Proof.
  intros Hne. unfold dict_overwrite, dict_set. destruct (dict_has d k); [|done].
  by apply dict_get_replace_ne.
Qed.

Lemma dict_overwrite_id d k v :
  (∀ v', dict_get d k = Some v' → v' = v) → dict_overwrite d k v = d.
Proof.
  intros H. unfold dict_overwrite, dict_set, dict_has.
  destruct (dict_get d k) as [v'|] eqn:E; [|done].
  apply dict_replace_id. by rewrite (H v' eq_refl) in E.
Qed.

Lemma same_except_refl ks d : same_except ks d d.
Proof. by split. Qed.

Lemma dict_get_None d k : dict_get d k = None ↔ k ∉ dict_keys d.
Proof.
  rewrite <-dict_has_keys. unfold dict_has.
  destruct (dict_get d k); split; done.
Qed.

(** Equal keys: what one dict lacks the other lacks. *)
Lemma same_except_absent ks d d' k :
  same_except ks d d' → dict_get d k = None → dict_get d' k = None.
Proof. intros [Hkeys _]. rewrite !dict_get_None. by rewrite Hkeys. Qed.

End Dicts.

(** ** The loop body on one cell *)

Lemma clean_cell_dict (d : dict) :
  clean_cell (JObj d) =
    match dict_get d "cell_type" with
    | None => Raise (mkExn KeyError (repr_key "cell_type"))
    | Some cell_type =>
        if py_eq_str cell_type "code" then
          let d2 := dict_overwrite (dict_overwrite d "outputs" (JList []))
                                   "execution_count" JNull in
          match dict_get d2 "metadata" with
          | None => Ok (JObj d2)
          | Some m =>
              let* has_execution := py_contains "execution" m in
              if has_execution : bool then
                let* m' := py_setitem m "execution" (JObj []) in
                Ok (JObj (dict_replace d2 "metadata" m'))
              else Ok (JObj d2)
          end
        else Ok (JObj d)
    end.
Proof.
  unfold clean_cell; simpl. destruct (dict_get d "cell_type") as [ct|]; simpl; [|done].
  destruct (py_eq_str ct "code"); [|done].
  unfold dict_overwrite.
  destruct (dict_has d "outputs"); simpl;
    match goal with |- context [dict_has ?x "execution_count"] =>
      destruct (dict_has x "execution_count"); simpl end;
    match goal with |- context [dict_has ?x "metadata"] =>
      unfold dict_has at 1; destruct (dict_get x "metadata") as [m|] eqn:Em; simpl end;
    try done;
    (destruct (py_contains "execution" m) as [[|]|]; simpl; try done;
     destruct (py_setitem m "execution" (JObj [])); simpl; try done;
     unfold dict_set at 1, dict_has; by rewrite Em).
Qed.

Lemma clean_cell_Ok_dict (c c' : json) :
  clean_cell c = Ok c' → ∃ d, c = JObj d.
Proof. destruct c; try done. by eexists. Qed.

Lemma metadata_step (m m' : json) :
  py_contains "execution" m = Ok true →
  py_setitem m "execution" (JObj []) = Ok m' →
  metadata_cleaned m m' ∧ metadata_settled m'.
Proof.
  destruct m as [| | | | |l|e]; try done. simpl. intros [= He] [= <-].
  unfold dict_set. rewrite He. split.
  - eexists; split; [done|]. split.
    + split; [apply dict_keys_replace|]. intros k Hk.
      apply dict_get_replace_ne. intros <-. apply Hk. by left.
    + intros _. by apply dict_get_replace_eq.
  - simpl. intros v. rewrite dict_get_replace_eq by done. by intros [= <-].
Qed.

Lemma metadata_skip (m : json) :
  py_contains "execution" m = Ok false →
  metadata_cleaned m m ∧ metadata_settled m.
Proof.
  destruct m as [| | | | |l|e]; try done; simpl.
  intros [= He]. split.
  - eexists; split; [done|]. split; [apply same_except_refl | by rewrite He].
  - intros v Hv. unfold dict_has in He. by rewrite Hv in He.
Qed.

Lemma clean_code_cell (d : dict) (c' : json) (cell_type : json) :
  dict_get d "cell_type" = Some cell_type →
  py_eq_str cell_type "code" = true →
  clean_cell (JObj d) = Ok c' →
  ∃ d', c' = JObj d' ∧ code_cell_cleaned d d'.
Proof.
  intros Hct Hcode. rewrite clean_cell_dict, Hct, Hcode. cbv zeta.
  set (d2 := dict_overwrite (dict_overwrite d "outputs" (JList [])) "execution_count" JNull).
  assert (Hkeys : dict_keys d2 = dict_keys d).
  { unfold d2. by rewrite !dict_keys_overwrite. }
  assert (Hout : dict_get d2 "outputs"
                 = if dict_has d "outputs" then Some (JList []) else None).
  { unfold d2. rewrite dict_get_overwrite_ne by done. apply dict_get_overwrite_eq. }
  assert (Hcnt : dict_get d2 "execution_count"
                 = if dict_has d "execution_count" then Some JNull else None).
  { unfold d2. rewrite dict_get_overwrite_eq.
    assert (dict_has (dict_overwrite d "outputs" (JList [])) "execution_count"
            = dict_has d "execution_count") as ->; [|done].
    unfold dict_has. by rewrite dict_get_overwrite_ne. }
  assert (Hother : ∀ k, k ≠ "outputs" → k ≠ "execution_count" →
                        dict_get d2 k = dict_get d k).
  { intros k H1 H2. unfold d2. by rewrite !dict_get_overwrite_ne. }
  assert (Hframe : ∀ k, k ∉ ["outputs"; "execution_count"; "metadata"] →
                        dict_get d2 k = dict_get d k).
  { intros k Hk. apply Hother; intros ->; apply Hk; set_solver. }
  rewrite (Hother "metadata") by done.
  destruct (dict_get d "metadata") as [m|] eqn:Em.
  - destruct (py_contains "execution" m) as [[|]|] eqn:Hc; simpl; [| |done].
    + destruct (py_setitem m "execution" (JObj [])) as [m'|] eqn:Hs; simpl; [|done].
      intros [= <-]. eexists; split; [done|].
      assert (Hm2 : dict_has d2 "metadata" = true).
      { unfold dict_has. by rewrite (Hother "metadata"), Em. }
      repeat split.
      * by rewrite dict_keys_replace.
      * intros k Hk. rewrite dict_get_replace_ne; [by apply Hframe|].
        intros <-. apply Hk. set_solver.
      * by rewrite dict_get_replace_ne.
      * by rewrite dict_get_replace_ne.
      * rewrite Em. exists m'. split; [by apply dict_get_replace_eq|].
        by apply metadata_step.
    + intros [= <-]. eexists; split; [done|]. repeat split; try done.
      rewrite Em. exists m. split; [by rewrite (Hother "metadata")|].
      by apply metadata_skip.
  - intros [= <-]. eexists; split; [done|]. repeat split; try done.
    by rewrite Em, (Hother "metadata").
Qed.

Lemma clean_other_cell (d : dict) (cell_type : json) :
  dict_get d "cell_type" = Some cell_type →
  py_eq_str cell_type "code" = false →
  clean_cell (JObj d) = Ok (JObj d).
Proof. intros Hct Hcode. by rewrite clean_cell_dict, Hct, Hcode. Qed.

Lemma py_eq_str_code (v : json) : py_eq_str v "code" = true ↔ v = JStr "code".
Proof.
  destruct v; simpl; try (split; [done | by intros [=]]).
  rewrite String.eqb_eq. split; [by intros -> | by intros [= ->]].
Qed.

(** ** The loop and the whole transform *)

(** A string literal is not among the listed ones. *)
Ltac solve_not_elem :=
  rewrite ?not_elem_of_cons; repeat split; (done || apply not_elem_of_nil).

Lemma clean_cells_Ok (cells cells' : list json) :
  clean_cells cells = Ok cells' ↔ Forall2 (λ c c', clean_cell c = Ok c') cells cells'.
Proof.
  revert cells'. induction cells as [|c cells IH]; intros cells'; simpl.
  - split; [intros [= <-]; constructor | by intros ->%Forall2_nil_inv_l].
  - split.
    + destruct (clean_cell c) as [c'|] eqn:Hc; simpl; [|done].
      destruct (clean_cells cells) as [rest|] eqn:Hr; simpl; [|done].
      intros [= <-]. constructor; [done | by apply IH].
    + intros (c' & rest & Hc & Hr & ->)%Forall2_cons_inv_l.
      apply IH in Hr. by rewrite Hc, Hr.
Qed.

(** Iterating over a dict or a [str] binds the loop variable to [str]
    objects, on which the loop body raises: the loop only comes to its
    end when there is nothing to iterate over. *)
Lemma clean_cells_strs (items : list string) (r : list json) :
  clean_cells (JStr <$> items) = Ok r → items = [].
Proof. by destruct items. Qed.

(** Every way the transform can succeed. *)
Lemma transform_Ok (notebook notebook' : json) :
  transform notebook = Ok notebook' →
  ∃ (dn : dict) (cells cells' : list json),
    notebook = JObj dn ∧
    notebook_cells notebook = Ok cells ∧
    notebook_cells notebook' = Ok cells' ∧
    Forall2 (λ c c', clean_cell c = Ok c') cells cells' ∧
    ((∃ v, dict_get dn "cells" = Some v ∧ cells = [] ∧ notebook' = notebook) ∨
     (dict_get dn "cells" = Some (JList cells) ∧
      notebook' = JObj (dict_replace dn "cells" (JList cells')))).
Proof.
  unfold transform, notebook_cells.
  destruct notebook as [| | | | | |dn]; try done. simpl.
  destruct (dict_get dn "cells") as [v|] eqn:Hv; simpl; [|done].
  destruct v as [| | | |s|l|e]; simpl; try done.
  - destruct (clean_cells (JStr <$> str_chars s)) as [r|] eqn:Hr; simpl; [|done].
    intros [= <-]. apply clean_cells_strs in Hr as Hs.
    exists dn, [], []. simpl. rewrite !Hv. simpl. rewrite Hs. repeat split; eauto.
  - destruct (clean_cells l) as [l'|] eqn:Hl; simpl; [|done].
    intros [= <-]. exists dn, l, l'. unfold dict_set, dict_has. rewrite Hv.
    simpl. rewrite dict_get_replace_eq by (unfold dict_has; by rewrite Hv).
    repeat split; [by apply clean_cells_Ok | by right].
  - destruct (clean_cells (JStr <$> dict_keys e)) as [r|] eqn:Hr; simpl; [|done].
    intros [= <-]. apply clean_cells_strs in Hr as Hs.
    exists dn, [], []. simpl. rewrite !Hv. simpl. rewrite Hs. repeat split; eauto.
Qed.

Lemma transform_document (notebook notebook' : json) :
  transform notebook = Ok notebook' →
  ∃ dn dn', notebook = JObj dn ∧ notebook' = JObj dn' ∧ same_except ["cells"] dn dn'.
Proof.
  intros (dn & cells & cells' & -> & _ & _ & _ & H)%transform_Ok.
  destruct H as [(v & _ & _ & ->)|[_ ->]].
  - exists dn, dn. repeat split; done.
  - eexists _, _. repeat split; [apply dict_keys_replace|].
    intros k Hk. apply dict_get_replace_ne. intros <-. apply Hk. set_solver.
Qed.

(** A cell the loop body has returned is returned unchanged when the
    body runs on it again. *)
Lemma clean_cell_settled (c c' : json) :
  clean_cell c = Ok c' → clean_cell c' = Ok c'.
Proof.
  intros Hc. destruct (clean_cell_Ok_dict _ _ Hc) as [d ->].
  pose proof Hc as Hc0. rewrite clean_cell_dict in Hc0.
  destruct (dict_get d "cell_type") as [ct|] eqn:Hct; [|done].
  destruct (py_eq_str ct "code") eqn:Hcode.
  - clear Hc0. destruct (clean_code_cell _ _ _ Hct Hcode Hc) as (d' & -> & Hd').
    destruct Hd' as ([_ Hframe] & Hout & Hcnt & Hmd).
    rewrite clean_cell_dict, Hframe, Hct, Hcode by solve_not_elem. cbv zeta.
    rewrite (dict_overwrite_id d' "outputs");
      [|intros v'; rewrite Hout; by destruct (dict_has d "outputs"); intros [=]].
    rewrite (dict_overwrite_id d' "execution_count");
      [|intros v'; rewrite Hcnt; by destruct (dict_has d "execution_count"); intros [=]].
    destruct (dict_get d "metadata") as [m|]; [|by rewrite Hmd].
    destruct Hmd as (m' & Hm' & _ & Hsettled). rewrite Hm'.
    destruct m' as [| | | |s|l|e]; simpl in Hsettled; try done;
      try (injection Hsettled as Hs; simpl; by rewrite Hs).
    simpl. unfold dict_set, dict_has at 1.
    destruct (dict_get e "execution") as [v|] eqn:He; simpl; [|done].
    unfold dict_has. rewrite He, (Hsettled v eq_refl) in *.
    by rewrite (dict_replace_id e), (dict_replace_id d').
  - by injection Hc0 as <-.
Qed.

(** ** Properties of the transform *)

(** C1 (completeness).  When the transform returns, every code cell it
    visited that had an [outputs] field has [outputs] equal to the empty
    list, every one that had an [execution_count] field has it equal to
    [None], and every one whose [metadata] was a dict holding the key
    [execution] still holds that key, now bound to an empty dict. *)
Theorem transform_clears_code_cells (notebook notebook' : json) :
  transform notebook = Ok notebook' →
  ∃ cells cells',
    notebook_cells notebook = Ok cells ∧
    notebook_cells notebook' = Ok cells' ∧
    Forall2 (λ c c', is_code_cell c →
                     outputs_cleared c c' ∧
                     execution_count_cleared c c' ∧
                     execution_cleared c c')
            cells cells'.
Proof.
  intros (dn & cells & cells' & -> & Hcells & Hcells' & Hall & _)%transform_Ok.
  exists cells, cells'. split; [done|]. split; [done|].
  eapply Forall2_impl; [exact Hall|]. clear. intros c c' Hc Hcode.
  destruct (clean_cell_Ok_dict _ _ Hc) as [d ->]. unfold is_code_cell in Hcode.
  simpl in Hcode.
  destruct (clean_code_cell d c' _ Hcode eq_refl Hc) as (d' & -> & Hd').
  destruct Hd' as (_ & Hout & Hcnt & Hmd).
  unfold outputs_cleared, execution_count_cleared, execution_cleared. simpl.
  split; [|split].
  - intros ?%dict_has_get. by rewrite Hout, H.
  - intros ?%dict_has_get. by rewrite Hcnt, H.
  - intros e He Hex%dict_has_get. rewrite He in Hmd.
    destruct Hmd as (m' & Hm' & (e' & -> & [Hkeys _] & Hexe) & _).
    exists e'. repeat split; [done | done | by apply Hexe].
Qed.

Lemma transform_clears_code_cells_witness :
  transform Sample.notebook = Ok Sample.notebook_cleaned ∧
  ∃ cells cells',
    notebook_cells Sample.notebook = Ok cells ∧
    notebook_cells Sample.notebook_cleaned = Ok cells' ∧
    Forall2 (λ c c', is_code_cell c →
                     outputs_cleared c c' ∧
                     execution_count_cleared c c' ∧
                     execution_cleared c c')
            cells cells'.
Proof.
  split; [reflexivity|].
  apply (transform_clears_code_cells Sample.notebook Sample.notebook_cleaned).
  reflexivity.
Defined.

(** C2 (selectivity).  When the transform returns, every cell it visited
    whose [cell_type] is not ["code"] is the same value as before,
    whatever fields it carries. *)
Theorem transform_keeps_other_cells (notebook notebook' : json) :
  transform notebook = Ok notebook' →
  ∃ cells cells',
    notebook_cells notebook = Ok cells ∧
    notebook_cells notebook' = Ok cells' ∧
    Forall2 (λ c c', ¬ is_code_cell c → c' = c) cells cells'.
Proof.
  intros (dn & cells & cells' & -> & Hcells & Hcells' & Hall & _)%transform_Ok.
  exists cells, cells'. split; [done|]. split; [done|].
  eapply Forall2_impl; [exact Hall|]. clear. intros c c' Hc Hcode.
  destruct (clean_cell_Ok_dict _ _ Hc) as [d ->].
  pose proof Hc as Hc0. rewrite clean_cell_dict in Hc0.
  destruct (dict_get d "cell_type") as [ct|] eqn:Hct; [|done].
  destruct (py_eq_str ct "code") eqn:Hct'.
  - apply py_eq_str_code in Hct' as ->. by destruct Hcode.
  - by injection Hc0 as <-.
Qed.

Lemma transform_keeps_other_cells_witness :
  transform Sample.notebook = Ok Sample.notebook_cleaned ∧
  ∃ cells cells',
    notebook_cells Sample.notebook = Ok cells ∧
    notebook_cells Sample.notebook_cleaned = Ok cells' ∧
    Forall2 (λ c c', ¬ is_code_cell c → c' = c) cells cells'.
Proof.
  split; [reflexivity|].
  apply (transform_keeps_other_cells Sample.notebook Sample.notebook_cleaned).
  reflexivity.
Defined.

(** C3 (field preservation).  When the transform returns, every code cell
    has the keys it had, in the same order, and the same value under
    every key but [outputs], [execution_count] and [metadata]; a dict
    under [metadata] has the keys it had and the same value under every
    key but [execution], and anything else under [metadata] is the same
    value.  The document has the keys it had, in the same order, and the
    same value under every key but [cells]. *)
Theorem transform_preserves_fields (notebook notebook' : json) :
  transform notebook = Ok notebook' →
  (∃ cells cells',
     notebook_cells notebook = Ok cells ∧
     notebook_cells notebook' = Ok cells' ∧
     Forall2 (λ c c', is_code_cell c → code_cell_preserved c c') cells cells') ∧
  (∃ dn dn',
     notebook = JObj dn ∧ notebook' = JObj dn' ∧ same_except ["cells"] dn dn').
Proof.
  intros Ht. split; [|by apply transform_document].
  destruct (transform_Ok _ _ Ht) as (dn & cells & cells' & -> & Hcells & Hcells' & Hall & _).
  exists cells, cells'. split; [done|]. split; [done|].
  eapply Forall2_impl; [exact Hall|]. clear. intros c c' Hc Hcode.
  destruct (clean_cell_Ok_dict _ _ Hc) as [d ->]. unfold is_code_cell in Hcode.
  simpl in Hcode.
  destruct (clean_code_cell d c' _ Hcode eq_refl Hc) as (d' & -> & Hd').
  destruct Hd' as (Hframe & _ & _ & Hmd).
  exists d, d'. repeat split; try apply Hframe.
  { intros k. by apply same_except_absent with (ks := ["outputs"; "execution_count"; "metadata"]). }
  destruct (dict_get d "metadata") as [m|]; [|done].
  destruct Hmd as (m' & ? & ? & _). by exists m'.
Qed.

Lemma transform_preserves_fields_witness :
  transform Sample.notebook = Ok Sample.notebook_cleaned ∧
  (∃ cells cells',
     notebook_cells Sample.notebook = Ok cells ∧
     notebook_cells Sample.notebook_cleaned = Ok cells' ∧
     Forall2 (λ c c', is_code_cell c → code_cell_preserved c c') cells cells') ∧
  (∃ dn dn',
     Sample.notebook = JObj dn ∧ Sample.notebook_cleaned = JObj dn' ∧
     same_except ["cells"] dn dn').
Proof.
  split; [reflexivity|].
  apply (transform_preserves_fields Sample.notebook Sample.notebook_cleaned).
  reflexivity.
Defined.

(** C4 (idempotence).  Running the transform on its own result gives
    that result again: two runs in a row are one run, also when the
    first one raises. *)
Theorem transform_idempotent (notebook : json) :
  (let* notebook' := transform notebook in transform notebook') = transform notebook.
Proof.
  destruct (transform notebook) as [notebook'|e] eqn:Ht; simpl; [|done].
  destruct (transform_Ok _ _ Ht) as (dn & cells & cells' & -> & _ & _ & Hall & H).
  destruct H as [(v & _ & _ & ->)|[Hv ->]]; [done|].
  assert (Hcells' : clean_cells cells' = Ok cells').
  { apply clean_cells_Ok. apply Forall2_same_length_lookup_2.
    - done.
    - intros i c1 c2 H1 H2. assert (c2 = c1) as -> by congruence.
      destruct (Forall2_lookup_r _ _ _ _ _ Hall H1) as (c & _ & Hc).
      by apply clean_cell_settled in Hc. }
  assert (Hhas : dict_has dn "cells" = true) by (unfold dict_has; by rewrite Hv).
  unfold transform. simpl. rewrite dict_get_replace_eq by done. simpl.
  rewrite Hcells'. simpl. unfold dict_set, dict_has.
  rewrite dict_get_replace_eq by done.
  rewrite (dict_replace_id (dict_replace dn "cells" (JList cells'))); [done|].
  by apply dict_get_replace_eq.
Qed.

(** ** One call of [clean_notebook] *)

Section CleanNotebook.
Context `{Runtime}.
Implicit Types (fs : gmap string file) (w : world) (path : string).







Lemma clean_notebook_unfold path w :
  clean_notebook path w =
    (mkWorld (cwd w) (clean_body path (files w)).1
             (stdout w ++ [report_line path (clean_body path (files w)).2]),
     is_ok (clean_body path (files w)).2).
Proof.
  unfold clean_notebook, print. destruct (clean_body path (files w)) as [fs [[]|e]]; done.
Qed.

End CleanNotebook.

(** ** The loop of [main] *)

Section Loop.
Context `{Runtime}.
Implicit Types (fs : gmap string file) (w : world) (paths : list string).

Lemma returns_files paths w1 w2 :
  files w1 = files w2 → returns paths w1 = returns paths w2.
Proof.
  revert w1 w2. induction paths as [|p paths IH]; intros w1 w2 Hfs; simpl; [done|].
  rewrite !clean_notebook_unfold, Hfs. f_equal. by apply IH.
Qed.





Lemma clean_all_cwd paths n w : cwd (clean_all paths n w).1 = cwd w.
Proof.
  revert n w. induction paths as [|p paths IH]; intros n w; simpl; [done|].
  rewrite clean_notebook_unfold. by rewrite IH.
Qed.


Lemma foldl_print (line : string → string) paths w :
  foldl (λ w file, print (line file) w) w paths
  = mkWorld (cwd w) (files w) (stdout w ++ (line <$> paths)).
Proof.
  revert w. induction paths as [|p paths IH]; intros w; simpl.
  - rewrite app_nil_r. by destruct w.
  - rewrite IH. unfold print. simpl. by rewrite <-app_assoc.
Qed.

Lemma before_loop_spec paths w :
  before_loop paths w
  = mkWorld (cwd w) (files w)
      (stdout w ++ ["Found " +:+ str_of_nat (length paths) +:+ " notebook files:"] ++
       ((λ file, "  - " +:+ file) <$> paths) ++
       [LF +:+ "Cleaning notebooks..."]).
Proof.
  unfold before_loop. rewrite foldl_print. unfold print. simpl.
  by rewrite <-!app_assoc.
Qed.

Lemma main_unfold w :
  main w =
    let paths := discover (cwd w) in
    let run := clean_all paths 0 (before_loop paths w) in
    print (summary run.2 (length paths)) run.1.
Proof.
  unfold main, before_loop, summary. cbv zeta.
  by destruct (clean_all _ _ _).
Qed.


End Loop.

(** ** Properties of a run *)

Section RunProperties.
Context `{Runtime}.
Implicit Types (fs : gmap string file) (w : world) (path : string).

(** An exception of the first three stages leaves every file as it was. *)
Lemma clean_body_no_write fs path e :
  read_bytes fs path = Raise e ∨
  (∃ bytes, read_bytes fs path = Ok bytes ∧ json_load bytes = Raise e) ∨
  (∃ bytes notebook, read_bytes fs path = Ok bytes ∧ json_load bytes = Ok notebook ∧
                     transform notebook = Raise e) →
  clean_body path fs = (fs, Raise e).
Proof.
  unfold clean_body.
  intros [Hr|[(bytes & Hr & Hl)|(bytes & nb & Hr & Hl & Ht)]]; rewrite Hr; [done|..];
    rewrite Hl; [done|]; by rewrite Ht.
Qed.

(** A cell without [cell_type] makes the transform raise, whatever the
    other cells are. *)
Lemma clean_cells_untyped (cells : list json) (d : dict) :
  JObj d ∈ cells → dict_get d "cell_type" = None →
  ∃ e, clean_cells cells = Raise e.
Proof.
  intros Hin Hd. induction cells as [|c cells IH]; [by apply elem_of_nil in Hin|].
  simpl. apply elem_of_cons in Hin as [<-|Hin].
  - rewrite clean_cell_dict, Hd. by eexists.
  - destruct (clean_cell c); simpl; [|by eexists].
    destruct (IH Hin) as [e ->]. by eexists.
Qed.



(** C10 (no write after a failed load or transform).  When opening,
    reading, parsing or transforming the file at [path] raises, the call
    prints its error line, returns [False] and leaves every file as it
    was.  A document one of whose cells is a dict without [cell_type] is
    such a case, whatever its other cells are. *)
Theorem failure_before_write_keeps_file path w e :
  read_bytes (files w) path = Raise e ∨
  (∃ bytes, read_bytes (files w) path = Ok bytes ∧ json_load bytes = Raise e) ∨
  (∃ bytes notebook,
     read_bytes (files w) path = Ok bytes ∧ json_load bytes = Ok notebook ∧
     transform notebook = Raise e) →
  clean_notebook path w
    = (print ("Error processing " +:+ path +:+ ": " +:+ exn_str e) w, false) ∧
  files (clean_notebook path w).1 = files w ∧
  ∀ (dn : dict) (cells : list json) (d : dict),
    dict_get dn "cells" = Some (JList cells) →
    JObj d ∈ cells → dict_get d "cell_type" = None →
    ∃ e', transform (JObj dn) = Raise e'.
Proof.
  intros Hfail%clean_body_no_write.
  rewrite clean_notebook_unfold, Hfail. simpl. split; [done|]. split; [done|].
  intros dn cells d Hcells Hin Hd. unfold transform. simpl. rewrite Hcells. simpl.
  destruct (clean_cells_untyped cells d Hin Hd) as [e' ->]. by eexists.
Qed.


End RunProperties.

(** ** The properties on the sample run *)


Lemma failure_before_write_keeps_file_witness :
  (∃ bytes notebook,
     read_bytes (files SampleRun.start) "./untyped.ipynb" = Ok bytes ∧
     @json_load SampleRun.runtime bytes = Ok notebook ∧
     transform notebook = Raise (mkExn KeyError "'cell_type'")) ∧
  @clean_notebook SampleRun.runtime "./untyped.ipynb" SampleRun.start
    = (print ("Error processing " +:+ "./untyped.ipynb" +:+ ": " +:+ "'cell_type'")
         SampleRun.start, false) ∧
  files (@clean_notebook SampleRun.runtime "./untyped.ipynb" SampleRun.start).1
    = files SampleRun.start.
Proof.
  assert (Hfail : ∃ bytes notebook,
             read_bytes (files SampleRun.start) "./untyped.ipynb" = Ok bytes ∧
             @json_load SampleRun.runtime bytes = Ok notebook ∧
             transform notebook = Raise (mkExn KeyError "'cell_type'")).
  { exists SampleRun.untyped_text, SampleRun.untyped_notebook.
    split; [|split]; vm_compute; reflexivity. }
  split; [exact Hfail|].
  destruct (@failure_before_write_keeps_file SampleRun.runtime "./untyped.ipynb"
              SampleRun.start (mkExn KeyError "'cell_type'")
              (or_intror (or_intror Hfail))) as (Hcall & Hfiles & _).
  split; [exact Hcall | exact Hfiles].
Defined.


(** ** The serializer *)

Section Serializer.
Context `{Runtime}.

Lemma append_cons (x : ascii) (a b : string) : String x a +:+ b = String x (a +:+ b).
Proof. reflexivity. Qed.

Lemma append_empty_l (a : string) : EmptyString +:+ a = a.
Proof. reflexivity. Qed.

Lemma append_assoc (a b c : string) : (a +:+ b) +:+ c = a +:+ b +:+ c.
Proof. induction a as [|x a IH]; [done|]. exact (f_equal (String x) IH). Qed.

Lemma append_empty_r (a : string) : a +:+ EmptyString = a.
Proof. induction a as [|x a IH]; [done|]. exact (f_equal (String x) IH). Qed.

Lemma encode_list (level : nat) (items : list json) :
  items ≠ [] →
  encode level (JList items)
  = "[" +:+ newline_indent (S level) +:+
    String.concat ("," +:+ newline_indent (S level)) (encode (S level) <$> items) +:+
    newline_indent level +:+ "]".
Proof.
  destruct items as [|x xs]; [done|]. intros _. cbn [encode]. do 2 f_equal.
  revert x. induction xs as [|y ys IH]; intros x.
  - done.
  - cbn [fmap list_fmap String.concat]. rewrite !append_assoc. f_equal.
    rewrite append_cons, append_empty_l. f_equal. f_equal. apply (IH y).
Qed.

Lemma encode_dict (level : nat) (members : dict) :
  members ≠ [] →
  encode level (JObj members)
  = "{" +:+ newline_indent (S level) +:+
    String.concat ("," +:+ newline_indent (S level)) (member_text (S level) <$> members) +:+
    newline_indent level +:+ "}".
Proof.
  destruct members as [|[k v] kvs]; [done|]. intros _. cbn [encode]. do 2 f_equal.
  revert k v. induction kvs as [|[k' v'] kvs IH]; intros k v.
  - cbn [fmap list_fmap String.concat]. unfold member_text. cbn [fst snd].
    by rewrite !append_assoc.
  - cbn [fmap list_fmap String.concat]. unfold member_text at 1. cbn [fst snd].
    rewrite !append_assoc. do 3 f_equal.
    rewrite append_cons, append_empty_l. f_equal. f_equal.
    specialize (IH k' v'). rewrite ?append_assoc in IH. exact IH.
Qed.




End Serializer.


(** ** Paths *)

Lemma substring_last (s : string) :
  String.substring (String.length s - 1) 1 s
  = match last_char s with
    | Some c => String c EmptyString
    | None => EmptyString
    end.
Proof.
  induction s as [|c s IH]; [done|].
  cbn [String.length last_char]. rewrite Nat.sub_1_r. cbn [Nat.pred].
  destruct s as [|c' s']; [done|].
  cbn [String.length] in *. rewrite Nat.sub_1_r in IH. cbn [Nat.pred] in IH.
  change (String.substring (S (String.length s')) 1 (String c (String c' s')))
    with (String.substring (String.length s') 1 (String c' s')).
  rewrite IH. cbn [last_char]. by destruct (last_char s').
Qed.

Lemma endswith_slash (s : string) : endswith s "/" = true → last_char s = Some "/"%char.
Proof.
  unfold endswith. cbn [String.length]. intros [_ Heq]%andb_true_iff.
  rewrite substring_last in Heq. apply String.eqb_eq in Heq.
  destruct (last_char s); by simplify_eq.
Qed.

Lemma last_char_append (a b : string) :
  b ≠ EmptyString → last_char (a +:+ b) = last_char b.
Proof.
  intros Hb. induction a as [|c a IH]; [done|].
  rewrite append_cons. cbn [last_char]. rewrite IH.
  destruct b as [|c' b]; [done|]. cbn [last_char]. by destruct (last_char b).
Qed.

Lemma last_char_has_slash (s : string) :
  last_char s = Some "/"%char → has_slash s = true.
Proof.
  induction s as [|c s IH]; [done|]. cbn [last_char has_slash].
  destruct (last_char s) as [c'|].
  - intros Hc. rewrite IH by done. apply orb_true_r.
  - intros [= ->]. done.
Qed.

Lemma has_slash_append (a b : string) :
  has_slash (a +:+ b) = has_slash a || has_slash b.
Proof.
  induction a as [|c a IH]; [done|].
  rewrite append_cons. cbn [has_slash]. by rewrite IH, orb_assoc.
Qed.

Lemma append_inj_l (a b c : string) : a +:+ b = a +:+ c → b = c.
Proof.
  induction a as [|x a IH]; [done|]. rewrite !append_cons. intros [= Heq]. by apply IH.
Qed.

(** Two texts that agree up to their first slash. *)
Lemma split_at_slash (a b x y : string) :
  has_slash a = false → has_slash b = false →
  a +:+ "/" +:+ x = b +:+ "/" +:+ y → a = b.
Proof.
  revert b. induction a as [|c a IH]; intros [|c' b]; cbn [has_slash]; try done.
  - rewrite append_cons. intros _ [Hc _]%orb_false_iff [= <- _]. done.
  - rewrite append_cons. intros [Hc _]%orb_false_iff _ [= -> _]. done.
  - rewrite !append_cons. intros [_ Ha]%orb_false_iff [_ Hb]%orb_false_iff [= -> Heq].
    f_equal. by apply IH.
Qed.

Lemma path_join_valid (top name : string) :
  good_top top → has_slash name = false →
  path_join top name = top +:+ "/" +:+ name.
Proof.
  intros [Hne Hlast] Hname. unfold path_join, startswith.
  assert (String.prefix "/" name = false) as ->.
  { destruct name as [|c name]; [done|]. cbn [has_slash] in Hname.
    apply orb_false_iff in Hname as [Hc _]. cbn [String.prefix].
    destruct (ascii_dec "/" c) as [<-|]; [done|done]. }
  destruct (String.eqb_spec top EmptyString) as [?|_]; [done|].
  destruct (endswith top "/") eqn:He; [|done].
  by apply endswith_slash in He.
Qed.

Lemma good_top_join (top name : string) :
  valid_name name → good_top (top +:+ "/" +:+ name).
Proof.
  intros [Hne Hslash]. split.
  - destruct top; [done|]. by rewrite append_cons.
  - rewrite <-append_assoc, last_char_append by done.
    intros Hl%last_char_has_slash. congruence.
Qed.

Lemma path_under_below (top : string) (names : list string) :
  path_under top names = top +:+ below names.
Proof.
  revert top. induction names as [|name names IH]; intros top; cbn [path_under below].
  - by rewrite append_empty_r.
  - by rewrite IH, !append_assoc.
Qed.

(** ** The walk *)

Lemma found_dir (top : string) (entries : list (string * node)) :
  found top (Dir entries)
  = (path_join top <$> filter (λ file, endswith file ".ipynb" = true) (filenames entries))
    ++ (entries ≫= λ e, found (path_join top e.1) e.2).
Proof.
  unfold found at 1. cbn [walk]. rewrite bind_cons. f_equal.
  induction entries as [|[name child] es IH]; [done|].
  rewrite bind_app, IH. by rewrite (bind_cons _ (name, child)).
Qed.

Lemma found_file (top : string) : found top File = [].
Proof. done. Qed.

(** The two nested loops of [main] collect the paths of [found]. *)
Lemma discover_found (t : node) : discover t = found "." t.
Proof.
  unfold discover, found.
  assert (Hinner : ∀ (root : string) (files : list string) (acc : list string),
            foldl (λ notebook_files file,
                     if endswith file ".ipynb"
                     then notebook_files ++ [path_join root file]
                     else notebook_files) acc files
            = acc ++ (path_join root <$>
                      filter (λ file, endswith file ".ipynb" = true) files)).
  { intros root files. induction files as [|file files IH]; intros acc.
    - by rewrite app_nil_r.
    - cbn [foldl]. rewrite IH, filter_cons.
      destruct (endswith file ".ipynb") eqn:He.
      + rewrite decide_True by done. by rewrite <-app_assoc.
      + by rewrite decide_False by done. }
  generalize (walk "." t). intros triples.
  enough (∀ acc,
            foldl (λ notebook_files '(root, _, files),
                     foldl (λ notebook_files file,
                              if endswith file ".ipynb"
                              then notebook_files ++ [path_join root file]
                              else notebook_files) notebook_files files)
                  acc triples
            = acc ++ (triples ≫= λ '(root, _, files),
                        path_join root <$>
                        filter (λ file, endswith file ".ipynb" = true) files))
    as Houter by apply (Houter []).
  induction triples as [|[[root dirs] files] triples IH]; intros acc.
  - by rewrite app_nil_r.
  - cbn [foldl]. rewrite IH, Hinner, bind_cons. by rewrite <-app_assoc.
Qed.

Lemma elem_of_filenames (entries : list (string * node)) (name : string) :
  name ∈ filenames entries ↔ (name, File) ∈ entries.
Proof.
  unfold filenames. rewrite list_elem_of_fmap. split.
  - intros ([name' n] & -> & [Hd Hin]%list_elem_of_filter). by destruct n.
  - intros Hin. exists (name, File). split; [done|]. by apply list_elem_of_filter.
Qed.

Lemma NoDup_filenames (entries : list (string * node)) :
  NoDup entries.*1 → NoDup (filenames entries).
Proof.
  unfold filenames. induction entries as [|[name n] es IH]; [constructor|].
  rewrite fmap_cons. intros [Hname Hnd]%NoDup_cons. rewrite filter_cons.
  destruct (decide (is_dir (name, n).2 = false)); [|by apply IH].
  rewrite fmap_cons. apply NoDup_cons. split; [|by apply IH].
  intros ([name' n'] & Heq & [_ Hin]%list_elem_of_filter)%list_elem_of_fmap.
  apply Hname, list_elem_of_fmap. exists (name', n'). by simplify_eq/=.
Qed.

(** The names that lead to a file are valid names, and there is at
    least one. *)
Lemma file_at_names (n : node) (names : list string) :
  well_formed n → file_at n names →
  names ≠ [] ∧ Forall valid_name names.
Proof.
  intros Hwf Hat. induction Hat as [entries name Hin|entries name child names Hin Hat IH].
  - inversion_clear Hwf as [|? _ Hall]. rewrite Forall_forall in Hall.
    split; [done|]. constructor; [|constructor]. by apply (Hall _ Hin).
  - inversion_clear Hwf as [|? _ Hall]. rewrite Forall_forall in Hall.
    destruct (Hall _ Hin) as [Hname Hchild]. split; [done|].
    constructor; [done|]. by apply IH.
Qed.

Lemma below_slash (names : list string) :
  names ≠ [] → ∃ rest, below names = "/" +:+ rest.
Proof. destruct names as [|name names]; [done|]. intros _. by eexists. Qed.

Lemma entries_functional (entries : list (string * node)) (name : string) (n1 n2 : node) :
  NoDup entries.*1 → (name, n1) ∈ entries → (name, n2) ∈ entries → n1 = n2.
Proof.
  induction entries as [|[name' n'] es IH]; [by intros _ ?%elem_of_nil|].
  rewrite fmap_cons. intros [Hname Hnd]%NoDup_cons.
  intros [?|H1]%elem_of_cons [?|H2]%elem_of_cons; simplify_eq/=.
  - done.
  - destruct Hname. apply list_elem_of_fmap. by exists (name', n2).
  - destruct Hname. apply list_elem_of_fmap. by exists (name', n1).
  - by apply IH.
Qed.

(** The paths collected below a well-formed directory are the paths of
    its files whose name ends with [.ipynb], each once. *)
Lemma found_spec (n : node) :
  well_formed n → ∀ top, good_top top →
  NoDup (found top n) ∧
  ∀ p, p ∈ found top n ↔
       ∃ names name,
         file_at n (names ++ [name]) ∧ endswith name ".ipynb" = true ∧
         p = path_under top (names ++ [name]).
Proof.
  induction n as [|entries IH] using node_induction; intros Hwf top Htop.
  { split; [constructor|]. intros p. split; [by intros ?%elem_of_nil|].
    intros (names & name & Hat & _). inversion Hat. }
  inversion_clear Hwf as [|? Hnd Hall]. rewrite Forall_forall in IH, Hall.
  assert (Hjoin : ∀ e, e ∈ entries → path_join top e.1 = top +:+ "/" +:+ e.1).
  { intros e He. apply path_join_valid; [done|]. by apply (Hall e He). }
  assert (Hsub : ∀ e, e ∈ entries →
            NoDup (found (path_join top e.1) e.2) ∧
            ∀ p, p ∈ found (path_join top e.1) e.2 ↔
                 ∃ names name,
                   file_at e.2 (names ++ [name]) ∧ endswith name ".ipynb" = true ∧
                   p = path_under (top +:+ "/" +:+ e.1) (names ++ [name])).
  { intros e He. destruct (Hall e He) as [Hname Hchild]. rewrite (Hjoin e He).
    apply (IH e He Hchild). by apply good_top_join. }
  assert (Hshape : ∀ e p, e ∈ entries → p ∈ found (path_join top e.1) e.2 →
            ∃ rest, p = top +:+ "/" +:+ e.1 +:+ "/" +:+ rest).
  { intros e p He Hp. apply (Hsub e He) in Hp as (names & name & _ & _ & ->).
    rewrite path_under_below.
    destruct (below_slash (names ++ [name])) as [rest ->]; [by destruct names|].
    exists rest. by rewrite !append_assoc. }
  assert (Hfile : ∀ name, (name, File) ∈ entries →
            path_join top name = top +:+ "/" +:+ name ∧ has_slash name = false).
  { intros name Hin. split; [apply (Hjoin _ Hin) | apply (Hall _ Hin)]. }
  rewrite found_dir. split.
  - apply NoDup_app. split; [|split].
    + apply NoDup_fmap_2_strong; [|by apply NoDup_filter, NoDup_filenames].
      intros f1 f2 [_ H1%elem_of_filenames]%list_elem_of_filter
             [_ H2%elem_of_filenames]%list_elem_of_filter.
      rewrite (proj1 (Hfile _ H1)), (proj1 (Hfile _ H2)).
      by intros ?%append_inj_l%append_inj_l.
    + intros p (f & -> & [_ Hf%elem_of_filenames]%list_elem_of_filter)%list_elem_of_fmap.
      intros (e & Hp & He)%list_elem_of_bind.
      destruct (Hshape e _ He Hp) as [rest Heq].
      destruct (Hfile f Hf) as [Hpath Hslash]. rewrite Hpath in Heq.
      apply append_inj_l, append_inj_l in Heq. subst f.
      rewrite has_slash_append in Hslash. apply orb_false_iff in Hslash as [_ Hslash].
      rewrite has_slash_append in Hslash. by apply orb_false_iff in Hslash as [? _].
    + apply NoDup_bind; [|intros e He; by apply (Hsub e He)|by eapply NoDup_fmap_1].
      intros [d1 n1] [d2 n2] p H1 H2 Hp1 Hp2.
      destruct (Hshape _ _ H1 Hp1) as [r1 Heq1], (Hshape _ _ H2 Hp2) as [r2 Heq2].
      cbn [fst] in *. rewrite Heq1 in Heq2.
      apply append_inj_l, append_inj_l in Heq2.
      apply split_at_slash in Heq2; [|apply (Hall _ H1)|apply (Hall _ H2)].
      subst d2. f_equal. by eapply entries_functional.
  - intros p. rewrite elem_of_app, list_elem_of_fmap, list_elem_of_bind. split.
    + intros [(f & -> & [Hends Hf%elem_of_filenames]%list_elem_of_filter)
             |([d child] & Hp & He)].
      * exists [], f. split; [by apply file_here|]. split; [done|].
        apply (Hfile f Hf).
      * apply (Hsub _ He) in Hp as (names & name & Hat & Hends & ->).
        exists (d :: names), name. split; [|done].
        by apply (file_below _ _ child).
    + intros (names & name & Hat & Hends & ->).
      inversion Hat as [? name0 Hin Heq|? name0 child names0 Hin Hat' Heq]; subst.
      * destruct names as [|? [|]]; simplify_eq/=. left. eexists.
        split; [symmetry; apply (Hfile _ Hin)|].
        apply list_elem_of_filter. split; [done|]. by apply elem_of_filenames.
      * destruct (file_at_names child names0) as [Hne _];
          [apply (Hall _ Hin)|done|].
        destruct names as [|name1 names1]; simplify_eq/=.
        right. eexists. split; [|exact Hin].
        apply (Hsub _ Hin). by eexists _, _.
Qed.

(** C8 (discovery).  On a well-formed tree under the working directory
    the discoverer collects exactly the paths of the files, at any depth,
    whose name ends with [.ipynb], and it collects none of them twice. *)
Theorem discover_exact (t : node) :
  well_formed t →
  NoDup (discover t) ∧
  ∀ p, p ∈ discover t ↔
       ∃ names name,
         file_at t (names ++ [name]) ∧ endswith name ".ipynb" = true ∧
         p = path_under "." (names ++ [name]).
Proof.
  intros Hwf. rewrite discover_found. apply found_spec; [done|].
  split; [done|]. cbn. by intros [=].
Qed.

Lemma discover_exact_witness :
  well_formed SampleRun.tree ∧
  NoDup (discover SampleRun.tree) ∧
  ∀ p, p ∈ discover SampleRun.tree ↔
       ∃ names name,
         file_at SampleRun.tree (names ++ [name]) ∧ endswith name ".ipynb" = true ∧
         p = path_under "." (names ++ [name]).
Proof.
  assert (Hwf : well_formed SampleRun.tree).
  { unfold SampleRun.tree.
    repeat first
      [ apply wf_file
      | apply wf_dir; [apply (bool_decide_unpack _); vm_compute; exact I|]
      | apply List.Forall_nil
      | apply List.Forall_cons; [split; [split; [discriminate | reflexivity]|]|] ]. }
  split; [exact Hwf|]. exact (discover_exact SampleRun.tree Hwf).
Defined.

(** * Further properties *)

(** ** Which documents the transform accepts, and how it fails *)

Lemma clean_cell_accepted (c : json) : is_ok (clean_cell c) = cell_accepted c.
Proof.
  destruct c as [| | | | | |d]; try done.
  rewrite clean_cell_dict. unfold cell_accepted.
  destruct (dict_get d "cell_type") as [ct|]; [|done].
  destruct (py_eq_str ct "code"); [|done]. cbv zeta.
  rewrite !dict_get_overwrite_ne by done.
  destruct (dict_get d "metadata") as [m|]; [|done].
  destruct m as [| | | |s|l|e]; try done; simpl.
  - by destruct (str_contains "execution" s).
  - by destruct (existsb _ l).
  - by destruct (dict_has e "execution").
Qed.

Lemma clean_cells_accepted (cells : list json) :
  is_ok (clean_cells cells) = forallb cell_accepted cells.
Proof.
  induction cells as [|c cells IH]; [done|]. simpl.
  rewrite <-clean_cell_accepted, <-IH.
  destruct (clean_cell c); [|done]. simpl. by destruct (clean_cells cells).
Qed.

Lemma str_chars_aux_cons (cur s : string) : str_chars_aux cur s ≠ [].
Proof.
  revert cur. induction s as [|c s IH]; intros cur; simpl; [done|].
  destruct (is_continuation c); [apply IH | done].
Qed.

(** X1.  The transform comes to its end exactly on the accepted
    documents: [cells] is a list of dicts that each have a [cell_type]
    and, when they are code cells, a [metadata] that is absent, a dict,
    or a [str] or list that does not hold ["execution"]; or [cells] is an
    empty dict or an empty [str]. *)
Theorem transform_accepts (notebook : json) :
  is_ok (transform notebook) = accepted notebook.
Proof.
  destruct notebook as [| | | | | |dn]; try done.
  unfold transform, accepted. simpl.
  destruct (dict_get dn "cells") as [v|]; [|done]. simpl.
  destruct v as [| | | |s|l|e]; try done; simpl.
  - destruct s as [|c s]; [done|]. simpl.
    pose proof (str_chars_aux_cons (String c EmptyString) s) as Hne.
    by destruct (str_chars_aux (String c EmptyString) s).
  - rewrite <-clean_cells_accepted. by destruct (clean_cells l).
  - by destruct e as [|[k v] e].
Qed.

Lemma clean_cell_raises (c : json) (e : exn) :
  clean_cell c = Raise e →
  (exn_cls e = KeyError ∧ exn_str e = "'cell_type'") ∨ exn_cls e = TypeError.
Proof.
  destruct c as [| | | | | |d]; try (intros [= <-]; by right).
  rewrite clean_cell_dict.
  destruct (dict_get d "cell_type") as [ct|]; [|intros [= <-]; by left].
  destruct (py_eq_str ct "code"); [|done]. cbv zeta.
  destruct (dict_get _ "metadata") as [m|]; [|done].
  destruct m as [| | | |s|l|e']; simpl; try (intros [= <-]; by right).
  - destruct (str_contains "execution" s); [intros [= <-]; by right | done].
  - destruct (existsb _ l); [intros [= <-]; by right | done].
  - by destruct (dict_has e' "execution").
Qed.

Lemma clean_cells_raises (cells : list json) (e : exn) :
  clean_cells cells = Raise e → ∃ c, c ∈ cells ∧ clean_cell c = Raise e.
Proof.
  induction cells as [|c cells IH]; [done|]. simpl.
  destruct (clean_cell c) as [c'|e'] eqn:Hc; simpl.
  - destruct (clean_cells cells) as [r|e'']; simpl; [done|].
    intros [= ->]. destruct (IH eq_refl) as (c0 & Hin & H0).
    exists c0. split; [by right | done].
  - intros [= ->]. exists c. split; [by left | done].
Qed.

(** X2.  The transform raises nothing but [KeyError] and [TypeError],
    and a [KeyError] names the key that is missing: ['cells'] in the
    document or ['cell_type'] in a cell. *)
Theorem transform_raises (notebook : json) (e : exn) :
  transform notebook = Raise e →
  (exn_cls e = KeyError ∧ (exn_str e = "'cells'" ∨ exn_str e = "'cell_type'")) ∨
  exn_cls e = TypeError.
Proof.
  assert (Hcells : ∀ cells, clean_cells cells = Raise e →
            (exn_cls e = KeyError ∧ (exn_str e = "'cells'" ∨ exn_str e = "'cell_type'")) ∨
            exn_cls e = TypeError).
  { intros cells (c & _ & [[? ?]|?]%clean_cell_raises)%clean_cells_raises; auto. }
  destruct notebook as [| | | | | |dn]; try (intros [= <-]; by right).
  unfold transform. simpl.
  destruct (dict_get dn "cells") as [v|]; [|intros [= <-]; left; auto]. simpl.
  destruct v as [| | | |s|l|d]; simpl; try (intros [= <-]; by right).
  - destruct (clean_cells (JStr <$> str_chars s)) eqn:Hc; simpl; [done|].
    intros [= ->]. by eapply Hcells.
  - destruct (clean_cells l) eqn:Hc; simpl; [done|].
    intros [= ->]. by eapply Hcells.
  - destruct (clean_cells (JStr <$> dict_keys d)) eqn:Hc; simpl; [done|].
    intros [= ->]. by eapply Hcells.
Qed.

Lemma transform_raises_witness :
  transform SampleRun.untyped_notebook = Raise (mkExn KeyError "'cell_type'") ∧
  ((exn_cls (mkExn KeyError "'cell_type'") = KeyError ∧
    (exn_str (mkExn KeyError "'cell_type'") = "'cells'" ∨
     exn_str (mkExn KeyError "'cell_type'") = "'cell_type'")) ∨
   exn_cls (mkExn KeyError "'cell_type'") = TypeError).
Proof.
  split; [reflexivity|].
  apply (transform_raises SampleRun.untyped_notebook). reflexivity.
Defined.

(** X3.  The exception of the transform is the one of the first cell the
    loop body raises on: the cells after it are never visited. *)
Theorem transform_first_error (dn : dict) (before after : list json) (bad : json) (e : exn) :
  dict_get dn "cells" = Some (JList (before ++ bad :: after)) →
  forallb cell_accepted before = true →
  clean_cell bad = Raise e →
  transform (JObj dn) = Raise e.
Proof.
  intros Hcells Hbefore Hbad. unfold transform. simpl. rewrite Hcells. simpl.
  enough (clean_cells (before ++ bad :: after) = Raise e) as -> by done.
  clear Hcells. induction before as [|c before IH]; simpl.
  - by rewrite Hbad.
  - simpl in Hbefore. apply andb_true_iff in Hbefore as [Hc Hrest].
    rewrite <-clean_cell_accepted in Hc. destruct (clean_cell c); [|done]. simpl.
    by rewrite (IH Hrest).
Qed.

Lemma transform_first_error_witness :
  dict_get [("cells", JList ([Sample.code_cell] ++ JNull :: [JInt 1]))] "cells"
    = Some (JList ([Sample.code_cell] ++ JNull :: [JInt 1])) ∧
  forallb cell_accepted [Sample.code_cell] = true ∧
  clean_cell JNull = Raise (mkExn TypeError "'NoneType' object is not subscriptable") ∧
  transform (JObj [("cells", JList ([Sample.code_cell] ++ JNull :: [JInt 1]))])
    = Raise (mkExn TypeError "'NoneType' object is not subscriptable").
Proof.
  split; [reflexivity|]. split; [reflexivity|]. split; [reflexivity|].
  apply (transform_first_error _ [Sample.code_cell] [JInt 1] JNull); reflexivity.
Defined.

(** X4.  A document whose cells are all dicts with a [cell_type] other
    than ["code"] comes out of the transform as the same value. *)
Theorem transform_without_code_cells (dn : dict) (cells : list json) :
  dict_get dn "cells" = Some (JList cells) →
  Forall (λ c, ∃ cell_type, field c "cell_type" = Some cell_type ∧
                            cell_type ≠ JStr "code") cells →
  transform (JObj dn) = Ok (JObj dn).
Proof.
  intros Hcells Hall. unfold transform. simpl. rewrite Hcells. simpl.
  assert (clean_cells cells = Ok cells) as ->.
  { clear Hcells. induction Hall as [|c cells (ct & Hct & Hne) _ IH]; [done|]. simpl.
    destruct c as [| | | | | |d]; try done. simpl in Hct.
    assert (py_eq_str ct "code" = false) as Hf.
    { destruct (py_eq_str ct "code") eqn:E; [|done]. by apply py_eq_str_code in E. }
    by rewrite (clean_other_cell d ct Hct Hf), IH. }
  simpl. unfold dict_set, dict_has. rewrite Hcells.
  by rewrite dict_replace_id.
Qed.

Lemma transform_without_code_cells_witness :
  dict_get [("cells", JList [Sample.markdown_cell]); ("nbformat", JInt 4)] "cells"
    = Some (JList [Sample.markdown_cell]) ∧
  transform (JObj [("cells", JList [Sample.markdown_cell]); ("nbformat", JInt 4)])
    = Ok (JObj [("cells", JList [Sample.markdown_cell]); ("nbformat", JInt 4)]).
Proof.
  split; [reflexivity|].
  apply (transform_without_code_cells _ [Sample.markdown_cell]); [reflexivity|].
  constructor; [|constructor]. exists (JStr "markdown"). split; [reflexivity | discriminate].
Defined.

(** ** One call of [clean_notebook], further *)

Section CleanNotebookFurther.
Context `{Runtime}.
Implicit Types (fs : gmap string file) (w : world) (path : string).

(** The transform returns its own results unchanged. *)
Lemma transform_settled (notebook notebook' : json) :
  transform notebook = Ok notebook' → transform notebook' = Ok notebook'.
Proof.
  intros Ht.
  destruct (transform_Ok _ _ Ht) as (dn & cells & cells' & -> & _ & _ & Hall & Hcase).
  destruct Hcase as [(v & _ & _ & ->)|[Hv ->]]; [done|].
  assert (Hcells' : clean_cells cells' = Ok cells').
  { apply clean_cells_Ok, Forall2_same_length_lookup_2; [done|].
    intros i c1 c2 H1 H2. assert (c2 = c1) as -> by congruence.
    destruct (Forall2_lookup_r _ _ _ _ _ Hall H1) as (c & _ & Hc).
    by apply clean_cell_settled in Hc. }
  assert (Hhas : dict_has dn "cells" = true) by (unfold dict_has; by rewrite Hv).
  unfold transform. simpl. rewrite dict_get_replace_eq by done. simpl.
  rewrite Hcells'. simpl. unfold dict_set, dict_has.
  rewrite dict_get_replace_eq by done.
  rewrite (dict_replace_id (dict_replace dn "cells" (JList cells'))); [done|].
  by apply dict_get_replace_eq.
Qed.

(** What a call does to a file that can be cleaned. *)
Lemma clean_body_success fs path (f : file) (notebook notebook' : json) :
  fs !! path = Some f → readable f = true → writable f = true →
  json_load (content f) = Ok notebook → transform notebook = Ok notebook' →
  (∀ n, room f = Some n → String.length (json_dumps notebook') ≤ n) →
  clean_body path fs
  = (<[path := mkFile (json_dumps notebook') true true (room f)]> fs, Ok ()).
Proof.
  intros Hf Hr Hw Hl Ht Hroom. unfold clean_body, read_bytes, write_bytes.
  rewrite Hf, Hr. cbn [bind]. rewrite Hl, Ht, Hw.
  destruct (room f) as [n|] eqn:Hn; [|done].
  by rewrite (proj2 (Nat.leb_le _ _) (Hroom n eq_refl)).
Qed.


(** X6.  Cleaning a file a second time, when [json.load] reads back
    what [json.dump] wrote for it, reports success again and leaves every
    file as the first call left it. *)
Theorem clean_notebook_again path w (f : file) (notebook notebook' : json) :
  files w !! path = Some f → readable f = true → writable f = true →
  json_load (content f) = Ok notebook → transform notebook = Ok notebook' →
  (∀ n, room f = Some n → String.length (json_dumps notebook') ≤ n) →
  json_load (json_dumps notebook') = Ok notebook' →
  clean_notebook path (clean_notebook path w).1
  = (print ("Cleaned: " +:+ path) (clean_notebook path w).1, true).
Proof.
  intros Hf Hr Hw Hl Ht Hroom Hback.
  rewrite (clean_notebook_unfold path w).
  rewrite (clean_body_success _ _ f notebook notebook') by done. cbn [fst snd].
  rewrite clean_notebook_unfold. cbn [files cwd stdout].
  rewrite (clean_body_success _ _ (mkFile (json_dumps notebook') true true (room f))
             notebook' notebook'); try done.
  - cbn [fst snd room report_line is_ok]. by rewrite insert_insert_eq.
  - by rewrite lookup_insert_eq.
  - by apply transform_settled in Ht.
Qed.


End CleanNotebookFurther.

Lemma clean_notebook_again_witness :
  files SampleRun.start !! "./a.ipynb"
    = Some (mkFile SampleRun.notebook_text true true None) ∧
  @json_load SampleRerun.runtime SampleRun.notebook_text = Ok Sample.notebook ∧
  transform Sample.notebook = Ok Sample.notebook_cleaned ∧
  @json_load SampleRerun.runtime (@json_dumps SampleRerun.runtime Sample.notebook_cleaned)
    = Ok Sample.notebook_cleaned ∧
  @clean_notebook SampleRerun.runtime "./a.ipynb"
    (@clean_notebook SampleRerun.runtime "./a.ipynb" SampleRun.start).1
  = (print ("Cleaned: " +:+ "./a.ipynb")
       (@clean_notebook SampleRerun.runtime "./a.ipynb" SampleRun.start).1, true).
Proof.
  split; [vm_compute; reflexivity|]. split; [vm_compute; reflexivity|].
  split; [reflexivity|]. split; [vm_compute; reflexivity|].
  apply (@clean_notebook_again SampleRerun.runtime "./a.ipynb" SampleRun.start
           (mkFile SampleRun.notebook_text true true None)
           Sample.notebook Sample.notebook_cleaned);
    try reflexivity; try (vm_compute; reflexivity).
  intros n [=].
Defined.


(** ** A whole run, further *)

Section MainFurther.
Context `{Runtime}.
Implicit Types (fs : gmap string file) (w : world) (paths : list string).


Lemma main_files w :
  files (main w)
  = files (clean_all (discover (cwd w)) 0 (before_loop (discover (cwd w)) w)).1.
Proof. rewrite main_unfold. done. Qed.


Lemma before_loop_files paths w : files (before_loop paths w) = files w.
Proof. by rewrite before_loop_spec. Qed.






(** X11.  When no notebook is discovered the run prints the count line
    with 0, the heading and the summary 0/0, and changes no file. *)
Theorem main_without_notebooks w :
  discover (cwd w) = [] →
  main w
  = mkWorld (cwd w) (files w)
      (stdout w ++ ["Found 0 notebook files:";
                    LF +:+ "Cleaning notebooks...";
                    LF +:+ "Completed! Successfully cleaned 0/0 notebooks."]).
Proof.
  intros Hnone. rewrite main_unfold, Hnone. cbv zeta.
  rewrite before_loop_spec. cbn [clean_all fst snd length fmap list_fmap].
  unfold print, summary. cbn [cwd files stdout]. f_equal.
  by rewrite <-app_assoc.
Qed.

End MainFurther.


Lemma sample_tree_well_formed : well_formed SampleRun.tree.
Proof.
  unfold SampleRun.tree.
  repeat first
    [ apply wf_file
    | apply wf_dir; [apply (bool_decide_unpack _); vm_compute; exact I|]
    | apply List.Forall_nil
    | apply List.Forall_cons; [split; [split; [discriminate | reflexivity]|]|] ].
Defined.



Lemma main_without_notebooks_witness :
  discover (cwd SampleRerun.bare) = [] ∧
  @main SampleRun.runtime SampleRerun.bare
  = mkWorld (cwd SampleRerun.bare) (files SampleRerun.bare)
      (stdout SampleRerun.bare ++
       ["Found 0 notebook files:";
        LF +:+ "Cleaning notebooks...";
        LF +:+ "Completed! Successfully cleaned 0/0 notebooks."]).
Proof.
  assert (Hnone : discover (cwd SampleRerun.bare) = []) by (vm_compute; reflexivity).
  split; [exact Hnone|].
  exact (@main_without_notebooks SampleRun.runtime SampleRerun.bare Hnone).
Defined.

(** ** The discovered paths, further *)

Lemma length_append (a b : string) :
  String.length (a +:+ b) = String.length a + String.length b.
Proof. induction a as [|c a IH]; [done|]. rewrite append_cons. simpl. by rewrite IH. Qed.

Lemma substring_skip (pre s : string) (m : nat) :
  String.substring (String.length pre) m (pre +:+ s) = String.substring 0 m s.
Proof. induction pre as [|c pre IH]; [done|]. rewrite append_cons. exact IH. Qed.

Lemma substring_full (s : string) : String.substring 0 (String.length s) s = s.
Proof. induction s as [|c s IH]; [done|]. simpl. by rewrite IH. Qed.

Lemma substring_split (s : string) (k : nat) :
  k ≤ String.length s →
  String.substring 0 k s +:+ String.substring k (String.length s - k) s = s.
Proof.
  revert k. induction s as [|c s IH]; intros [|k] Hk; simpl in *; try done.
  - by rewrite substring_full.
  - rewrite append_cons. f_equal. apply IH. lia.
Qed.

(** [s.endswith(suffix)] holds exactly when [s] is some text followed by
    [suffix]. *)
Lemma endswith_spec (s suffix : string) :
  endswith s suffix = true ↔ ∃ pre, s = pre +:+ suffix.
Proof.
  unfold endswith. split.
  - intros [Hle%Nat.leb_le Heq%String.eqb_eq]%andb_true_iff.
    exists (String.substring 0 (String.length s - String.length suffix) s).
    pose proof (substring_split s (String.length s - String.length suffix)) as Hs.
    replace (String.length s - (String.length s - String.length suffix))
      with (String.length suffix) in Hs by lia.
    rewrite Heq in Hs. symmetry. apply Hs. lia.
  - intros [pre ->]. rewrite length_append. apply andb_true_iff. split.
    + apply Nat.leb_le. lia.
    + replace (String.length pre + String.length suffix - String.length suffix)
        with (String.length pre) by lia.
      rewrite substring_skip, substring_full. apply String.eqb_refl.
Qed.

Lemma prefix_append (pre s : string) : String.prefix pre (pre +:+ s) = true.
Proof.
  induction pre as [|c pre IH]; [by destruct s|].
  rewrite append_cons. cbn [String.prefix]. by destruct (ascii_dec c c).
Qed.

Lemma below_snoc (names : list string) (name : string) :
  below (names ++ [name]) = below names +:+ "/" +:+ name.
Proof.
  induction names as [|n names IH]; simpl.
  - by rewrite append_empty_r.
  - by rewrite IH, !append_assoc.
Qed.

(** X12.  On a well-formed tree every discovered path begins with [./]
    and ends with [.ipynb]. *)
Theorem discovered_paths_shape (t : node) (p : string) :
  well_formed t → p ∈ discover t →
  startswith p "./" = true ∧ endswith p ".ipynb" = true.
Proof.
  intros Hwf. rewrite discover_found.
  assert (Htop : good_top ".") by (split; [done|]; cbn; by intros [=]).
  intros (names & name & _ & Hends & ->)%(proj2 (found_spec t Hwf "." Htop)).
  rewrite path_under_below, below_snoc. split.
  - destruct (below_slash (names ++ [name])) as [rest Hrest]; [by destruct names|].
    rewrite <-below_snoc, Hrest. apply (prefix_append "./" rest).
  - apply endswith_spec in Hends as [pre ->].
    apply endswith_spec. exists ("." +:+ below names +:+ "/" +:+ pre).
    by rewrite !append_assoc.
Qed.

Lemma discovered_paths_shape_witness :
  well_formed SampleRun.tree ∧
  "./sub/b.ipynb" ∈ discover SampleRun.tree ∧
  startswith "./sub/b.ipynb" "./" = true ∧ endswith "./sub/b.ipynb" ".ipynb" = true.
Proof.
  assert (Hq : "./sub/b.ipynb" ∈ discover SampleRun.tree).
  { apply (bool_decide_unpack _). vm_compute. exact I. }
  split; [exact sample_tree_well_formed|]. split; [exact Hq|].
  exact (discovered_paths_shape SampleRun.tree _ sample_tree_well_formed Hq).
Defined.

(** X13.  The discovered paths come in the order of the walk: first the
    notebooks of the directory itself in listing order, then, for each
    entry in listing order, the notebooks collected below it. *)
Theorem discover_order (entries : list (string * node)) :
  discover (Dir entries)
  = (path_join "." <$>
     filter (λ file, endswith file ".ipynb" = true) (filenames entries))
    ++ (entries ≫= λ e, found (path_join "." e.1) e.2).
Proof. by rewrite discover_found, found_dir. Qed.

(** ** The serializer, further *)

Lemma list_ascii_of_append (a b : string) :
  String.list_ascii_of_string (a +:+ b)
  = String.list_ascii_of_string a ++ String.list_ascii_of_string b.
Proof. induction a as [|c a IH]; [done|]. rewrite append_cons. simpl. by rewrite IH. Qed.

Lemma escape_char_printable (c : ascii) :
  forallb (λ x, 32 <=? nat_of_ascii x) (String.list_ascii_of_string (escape_char c)) = true.
Proof. destruct c as [[] [] [] [] [] [] [] []]; vm_compute; reflexivity. Qed.

(** X14.  A serialized string literal holds no character below U+0020:
    no text of the document can put a line break or another control
    character into the file. *)
Theorem string_literal_printable (s : string) :
  Forall (λ c, 32 ≤ nat_of_ascii c) (String.list_ascii_of_string (encode_basestring s)).
Proof.
  unfold encode_basestring. rewrite !list_ascii_of_append.
  assert (Hdq : Forall (λ c, 32 ≤ nat_of_ascii c) (String.list_ascii_of_string DQ))
    by (repeat constructor).
  apply Forall_app. split; [done|]. apply Forall_app. split; [|done].
  induction s as [|c s IH]; [constructor|].
  cbn [escape]. rewrite list_ascii_of_append. apply Forall_app. split; [|done].
  pose proof (escape_char_printable c) as Hc.
  rewrite forallb_forall in Hc. apply Forall_forall. intros x Hx.
  apply Nat.leb_le, Hc. by apply list_elem_of_In.
Qed.

Lemma unescape_escape_char (c : ascii) (rest : string) :
  unescape (escape_char c +:+ rest) = String c <$> unescape rest.
Proof. destruct c as [[] [] [] [] [] [] [] []]; reflexivity. Qed.

Lemma unescape_escape (s rest : string) :
  unescape (escape s +:+ rest) = (λ r, s +:+ r) <$> unescape rest.
Proof.
  induction s as [|c s IH].
  - cbn [escape]. rewrite append_empty_l. by destruct (unescape rest).
  - cbn [escape]. rewrite append_assoc, unescape_escape_char, IH.
    by destruct (unescape rest).
Qed.

Lemma append_inj_r (a b c : string) : a +:+ c = b +:+ c → a = b.
Proof.
  revert b. induction a as [|x a IH]; intros [|y b] Heq.
  - done.
  - apply (f_equal String.length) in Heq.
    rewrite append_empty_l, append_cons in Heq. cbn [String.length] in Heq.
    rewrite length_append in Heq. lia.
  - apply (f_equal String.length) in Heq.
    rewrite append_empty_l, append_cons in Heq. cbn [String.length] in Heq.
    rewrite length_append in Heq. lia.
  - rewrite !append_cons in Heq. injection Heq as -> Heq. f_equal. by apply IH.
Qed.

(** X15.  Two strings with the same serialized literal are the same
    string: escaping loses nothing. *)
Theorem string_literal_injective (s1 s2 : string) :
  encode_basestring s1 = encode_basestring s2 → s1 = s2.
Proof.
  unfold encode_basestring. intros Heq%append_inj_l.
  apply (f_equal unescape) in Heq. rewrite !unescape_escape in Heq.
  cbn in Heq. injection Heq as Heq. by apply append_inj_r in Heq.
Qed.

Lemma string_literal_injective_witness :
  encode_basestring "a\b" = encode_basestring "a\b" ∧ "a\b" = "a\b".
Proof.
  split; [reflexivity|]. apply (string_literal_injective "a\b" "a\b"). reflexivity.
Defined.

Section Nesting.
Context `{Runtime}.

Lemma reindent_append (a b : string) : reindent (a +:+ b) = reindent a +:+ reindent b.
Proof.
  induction a as [|c a IH]; [done|]. rewrite append_cons. cbn [reindent].
  destruct (Ascii.eqb c "010"); rewrite IH; [|done].
  reflexivity.
Qed.

Lemma reindent_plain (s : string) : has_newline s = false → reindent s = s.
Proof.
  induction s as [|c s IH]; [done|]. cbn [has_newline reindent].
  intros [-> Hs]%orb_false_iff. by rewrite IH.
Qed.

Lemma has_newline_append (a b : string) :
  has_newline (a +:+ b) = has_newline a || has_newline b.
Proof.
  induction a as [|c a IH]; [done|]. rewrite append_cons. cbn [has_newline].
  by rewrite IH, orb_assoc.
Qed.

Lemma has_newline_spaces (n : nat) : has_newline (spaces n) = false.
Proof. induction n as [|n IH]; [done|]. exact IH. Qed.

Lemma escape_char_newline (c : ascii) : has_newline (escape_char c) = false.
Proof. destruct c as [[] [] [] [] [] [] [] []]; reflexivity. Qed.

Lemma encode_basestring_newline (s : string) : has_newline (encode_basestring s) = false.
Proof.
  unfold encode_basestring. rewrite !has_newline_append.
  assert (has_newline (escape s) = false) as ->; [|done].
  induction s as [|c s IH]; [done|]. cbn [escape].
  by rewrite has_newline_append, escape_char_newline, IH.
Qed.

Lemma string_of_uint_newline (d : Decimal.uint) :
  has_newline (NilEmpty.string_of_uint d) = false.
Proof. induction d; [done|exact IHd..]. Qed.

Lemma string_of_uint_zero_newline (d : Decimal.uint) :
  has_newline (NilZero.string_of_uint d) = false.
Proof.
  unfold NilZero.string_of_uint. destruct d; try done;
    match goal with |- has_newline (NilEmpty.string_of_uint ?u) = false =>
      apply (string_of_uint_newline u) end.
Qed.

Lemma repr_int_newline (n : Z) : has_newline (repr_int n) = false.
Proof.
  unfold repr_int, NilZero.string_of_int.
  destruct (Z.to_int n) as [d|d]; cbn [has_newline Ascii.eqb orb];
    apply string_of_uint_zero_newline.
Qed.

Lemma reindent_newline_indent (level : nat) :
  reindent (newline_indent level) = newline_indent (S level).
Proof.
  unfold newline_indent, LF. rewrite append_cons, append_empty_l. cbn [reindent Ascii.eqb].
  rewrite reindent_plain by apply has_newline_spaces.
  replace (2 * S level) with (S (S (2 * level))) by lia. done.
Qed.

Lemma reindent_concat (sep : string) (l : list string) :
  reindent (String.concat sep l) = String.concat (reindent sep) (reindent <$> l).
Proof.
  induction l as [|x l IH]; [done|]. destruct l as [|y l]; [done|].
  cbn [String.concat fmap list_fmap] in *. by rewrite !reindent_append, IH.
Qed.

(** X16.  When [float.__repr__] writes no line break, the text of a
    value one nesting depth further in is its text with two more spaces
    after every line break: each depth indents by exactly two spaces. *)
Theorem encode_nesting :
  (∀ f, has_newline (float_repr f) = false) →
  ∀ (o : json) (level : nat), encode (S level) o = reindent (encode level o).
Proof.
  intros Hfloat o.
  induction o as [|b|n|f|s|items IH|members IH] using json_induction; intros level.
  - done.
  - by destruct b.
  - cbn [encode]. by rewrite reindent_plain by apply repr_int_newline.
  - cbn [encode]. rewrite reindent_plain; [done|].
    destruct f as [[]|[]| |]; try done. apply Hfloat.
  - cbn [encode]. by rewrite reindent_plain by apply encode_basestring_newline.
  - destruct items as [|x xs]; [done|].
    rewrite !encode_list by done.
    rewrite !reindent_append, reindent_concat, reindent_append, !reindent_newline_indent.
    do 3 f_equal. change (reindent ",") with ",". f_equal. rewrite <-list_fmap_compose.
    apply Forall_fmap_ext_1. eapply Forall_impl; [exact IH|].
    intros y Hy. apply Hy.
  - destruct members as [|[k v] kvs]; [done|].
    rewrite !encode_dict by done.
    rewrite !reindent_append, reindent_concat, reindent_append, !reindent_newline_indent.
    do 3 f_equal. change (reindent ",") with ",". f_equal. rewrite <-list_fmap_compose.
    apply Forall_fmap_ext_1. eapply Forall_impl; [exact IH|].
    intros [k' v'] Hv. unfold member_text. cbn [fst snd compose] in *.
    rewrite !reindent_append, Hv.
    by rewrite (reindent_plain (encode_basestring k')) by apply encode_basestring_newline.
Qed.

End Nesting.

Lemma encode_nesting_witness :
  (∀ f, has_newline (@float_repr SampleRun.runtime f) = false) ∧
  @encode SampleRun.runtime 1 Sample.notebook
  = reindent (@encode SampleRun.runtime 0 Sample.notebook).
Proof.
  assert (Hfloat : ∀ f, has_newline (@float_repr SampleRun.runtime f) = false)
    by (intros f; reflexivity).
  split; [exact Hfloat|].
  exact (@encode_nesting SampleRun.runtime Hfloat Sample.notebook 0).
Defined.

(** ** What a run never does to the file store *)

Section Entries.
Context `{Runtime}.
Implicit Types (fs : gmap string file) (w : world) (paths : list string).

Lemma same_entries_refl fs : same_entries fs fs.
Proof. intros q. by destruct (fs !! q). Qed.

Lemma same_entries_trans fs1 fs2 fs3 :
  same_entries fs1 fs2 → same_entries fs2 fs3 → same_entries fs1 fs3.
Proof.
  intros H12 H23 q. specialize (H12 q). specialize (H23 q).
  destruct (fs1 !! q), (fs2 !! q), (fs3 !! q); try done.
  destruct H12 as (? & ? & ?), H23 as (? & ? & ?). split_and!; congruence.
Qed.

Lemma same_entries_insert fs (path : string) (f f' : file) :
  fs !! path = Some f →
  readable f' = readable f → writable f' = writable f → room f' = room f →
  same_entries fs (<[path := f']> fs).
Proof.
  intros Hf Hr Hw Hroom q. destruct (decide (q = path)) as [->|Hq].
  - by rewrite Hf, lookup_insert_eq.
  - rewrite lookup_insert_ne by done. by destruct (fs !! q).
Qed.

Lemma clean_body_entries fs (path : string) :
  same_entries fs (clean_body path fs).1.
Proof.
  unfold clean_body, read_bytes, write_bytes.
  destruct (fs !! path) as [f|] eqn:Hf; [|apply same_entries_refl].
  destruct (readable f) eqn:Hr; [|apply same_entries_refl].
  destruct (json_load (content f)) as [nb|]; [|apply same_entries_refl].
  destruct (transform nb) as [nb'|]; [|apply same_entries_refl].
  destruct (writable f) eqn:Hw; [|apply same_entries_refl].
  destruct (room f) as [n|] eqn:Hn; [destruct (_ <=? _)|]; cbn [fst];
    apply (same_entries_insert _ _ f); cbn; congruence.
Qed.

Lemma clean_all_entries paths (n : nat) w :
  same_entries (files w) (files (clean_all paths n w).1).
Proof.
  revert n w. induction paths as [|p paths IH]; intros n w; [apply same_entries_refl|].
  simpl. rewrite clean_notebook_unfold.
  eapply same_entries_trans; [apply (clean_body_entries (files w) p)|].
  exact (IH _ (mkWorld (cwd w) (clean_body p (files w)).1
                 (stdout w ++ [report_line p (clean_body p (files w)).2]))).
Qed.

(** X17.  A run creates no file and removes none, and leaves every
    file its permissions: after it the file store has the paths it had,
    and the files differ in contents at most. *)
Theorem main_keeps_entries w : same_entries (files w) (files (main w)).
Proof.
  rewrite main_files.
  rewrite <-(before_loop_files (discover (cwd w)) w) at 1.
  apply clean_all_entries.
Qed.

End Entries.
